(** * stock_reserve_sale: sale orders and sale order lines with stock reservations

    A shallow embedding of [stock_reserve_sale/model/sale.py].  The two
    classes of the file, [SaleOrder] and [SaleOrderLine], become two modules
    whose definitions carry the names of the Python methods.  The database of
    the host framework is an explicit store that every method threads through;
    a Python exception is a result that carries the store reached when it was
    raised.  Access rights ([sudo]) are not modelled.  The onchange handler
    [onchange_product_id_qty] only builds a warning for the form view from a
    floating-point comparison and is left out. *)

From stdpp Require Import gmap strings list fin_maps sorting.

Local Open Scope string_scope.
Local Open Scope list_scope.
Local Set Warnings "-clear-no-such-hyp".

(** * Records of the host framework *)

(** A record id is the position of its row in the table of its model. *)
Abbreviation record_id := nat (only parsing).

(** [product.product]: [type], [route_ids], [categ_id]. *)
Record product_product := {
  product_type : string;
  product_route_ids : list record_id;
  product_categ_id : option record_id
}.

(** [product.category]: [total_route_ids]. *)
Record product_category := {
  categ_total_route_ids : list record_id
}.

(** [stock.warehouse]: [route_ids]. *)
Record stock_warehouse := {
  warehouse_route_ids : list record_id
}.

(** [procurement.rule]: the fields the lookup filters, orders and reads. *)
Record procurement_rule := {
  rule_route_id : option record_id;
  rule_warehouse_id : option record_id;
  rule_route_sequence : Z;
  rule_sequence : Z;
  rule_procure_method : string
}.

(** [procurement.group], as created by [_prepare_stock_reservation]. *)
Record procurement_group := {
  group_name : string;
  group_move_type : string;
  group_sale_id : record_id;
  group_partner_id : option record_id
}.

(** [sale.order] with the two computed, stored booleans of the module. *)
Record sale_order := {
  order_name : string;
  order_state : string;
  order_warehouse_id : option record_id;
  order_picking_policy : string;
  order_partner_shipping_id : option record_id;
  order_procurement_group_id : option record_id;
  order_has_stock_reservation : bool;
  order_is_stock_reservable : bool
}.

(** [sale.order.line].  [line_stock_owner_id] is [None] both when the field
    is unset and when the module that declares it is not installed: the
    source maps the two cases to the same [owner_id = False].  Quantities
    and prices are only read and copied, never computed with, so the host's
    floats are carried as integers.  [line_is_stock_reservable] is the
    stored value of the computed field: it changes only when
    [_compute_is_stock_reservation] runs, and when the host schedules that
    run is not part of the model. *)
Record sale_order_line := {
  line_order_id : record_id;
  line_name : string;
  line_state : string;
  line_product_id : option record_id;
  line_product_uom : option record_id;
  line_product_uom_qty : Z;
  line_price_unit : Z;
  line_stock_owner_id : option record_id;
  line_is_stock_reservable : bool
}.

(** Life cycle of a reservation, as far as this module drives it. *)
Inductive reservation_status := Draft | Reserved | Released.

(** The dictionary built by [_prepare_stock_reservation], one field per
    key. *)
Record reservation_vals := {
  res_product_id : option record_id;
  res_product_uom : option record_id;
  res_product_uom_qty : Z;
  res_date_validity : option string;
  res_name : string;
  res_note : option string;
  res_price_unit : Z;
  res_sale_line_id : option record_id;
  res_partner_id : option record_id;
  res_restrict_partner_id : option record_id;
  res_group_id : option record_id
}.

(** [stock.reservation]: the values it was created or written with, and
    its status. *)
Record stock_reservation := {
  res_vals :> reservation_vals;
  res_status : reservation_status
}.

(** Calls that leave the module, in the order they are made. *)
Inductive event :=
  | CallReserve (reservations : list record_id)
  | CallRelease (reservations : list record_id)
  | CallSuperActionConfirm (orders : list record_id)
  | CallSuperActionCancel (orders : list record_id).

(** The store: one table per model, and the trace of outgoing calls. *)
Record db := {
  products : list product_product;
  categories : list product_category;
  warehouses : list stock_warehouse;
  rules : list procurement_rule;
  groups : list procurement_group;
  orders : list sale_order;
  lines : list sale_order_line;
  reservations : list stock_reservation;
  trace : list event
}.

Definition set_groups (t : list procurement_group) (st : db) : db :=
  {| products := products st; categories := categories st;
     warehouses := warehouses st; rules := rules st; groups := t;
     orders := orders st; lines := lines st;
     reservations := reservations st; trace := trace st |}.

Definition set_orders (t : list sale_order) (st : db) : db :=
  {| products := products st; categories := categories st;
     warehouses := warehouses st; rules := rules st; groups := groups st;
     orders := t; lines := lines st;
     reservations := reservations st; trace := trace st |}.

Definition set_lines (t : list sale_order_line) (st : db) : db :=
  {| products := products st; categories := categories st;
     warehouses := warehouses st; rules := rules st; groups := groups st;
     orders := orders st; lines := t;
     reservations := reservations st; trace := trace st |}.

Definition set_reservations (t : list stock_reservation) (st : db) : db :=
  {| products := products st; categories := categories st;
     warehouses := warehouses st; rules := rules st; groups := groups st;
     orders := orders st; lines := lines st;
     reservations := t; trace := trace st |}.

Definition emit (e : event) (st : db) : db :=
  {| products := products st; categories := categories st;
     warehouses := warehouses st; rules := rules st; groups := groups st;
     orders := orders st; lines := lines st;
     reservations := reservations st; trace := trace st ++ [e] |}.

(** * Exceptions and the method monad *)

Inductive exc :=
  | UserError (msg : string)
  | MissingError
  | ValueError.

Inductive result (A : Type) :=
  | Ok (a : A) (st : db)
  | Raise (e : exc) (st : db).
Arguments Ok {A} a st.
Arguments Raise {A} e st.

Definition M (A : Type) : Type := db → result A.

Definition ret {A} (a : A) : M A := λ st, Ok a st.
Definition raise {A} (e : exc) : M A := λ st, Raise e st.
Definition bind {A B} (c : M A) (k : A → M B) : M B :=
  λ st, match c st with
        | Ok a st' => k a st'
        | Raise e st' => Raise e st'
        end.
Definition get : M db := λ st, Ok st st.
Definition modify (f : db → db) : M unit := λ st, Ok tt (f st).

Notation "'let!' x ':=' c1 'in' c2" := (bind c1 (λ x, c2))
  (at level 10, x name, c1 at level 100, c2 at level 200).
Notation "c1 ;;; c2" := (bind c1 (λ _, c2))
  (at level 100, c2 at level 200, right associativity).

(** [for x in xs: body]. *)
Fixpoint for_each {A} (xs : list A) (body : A → M unit) : M unit :=
  match xs with
  | [] => ret tt
  | x :: xs' => body x ;;; for_each xs' body
  end.

(** The store a result ends in, whether it returned or raised. *)
Definition final {A} (r : result A) : db :=
  match r with Ok _ st => st | Raise _ st => st end.

(** Reading a field of a record of [self] that has no row raises
    [MissingError]. *)
Definition read {A} (table : db → list A) (i : record_id) : M A :=
  λ st, match table st !! i with
        | Some r => Ok r st
        | None => Raise MissingError st
        end.

(** * Operations of the host framework

    The object-relational layer the module calls into: searches with a
    domain, an order and a limit; reads of relational fields; [write] and
    [create]. *)

(** ** Search domains *)

Inductive domain_value :=
  | DFalse
  | DId (i : record_id)
  | DIds (l : list record_id).

(** A domain is a list in prefix notation: ['|'], ['&'] and ['!'] apply to
    the terms that follow them, and the terms left at top level are joined
    by an implicit ['&']. *)
Inductive domain_item :=
  | Or
  | And
  | Not
  | Leaf (field op : string) (v : domain_value).

Definition rule_many2one (field : string) (r : procurement_rule)
    : option (option record_id) :=
  if String.eqb field "route_id" then Some (rule_route_id r)
  else if String.eqb field "warehouse_id" then Some (rule_warehouse_id r)
  else None.

Definition eval_leaf (r : procurement_rule) (field op : string)
    (v : domain_value) : bool :=
  match rule_many2one field r with
  | None => false
  | Some x =>
      if String.eqb op "=" then
        match v with
        | DFalse => bool_decide (x = None)
        | DId i => bool_decide (x = Some i)
        | DIds _ => false
        end
      else if String.eqb op "in" then
        match v, x with
        | DIds l, Some i => bool_decide (i ∈ l)
        | _, _ => false
        end
      else false
  end.

(** The domain is read from its right end with a stack of truth values. *)
Definition domain_step (r : procurement_rule) (item : domain_item)
    (stack : list bool) : list bool :=
  match item, stack with
  | Leaf field op v, _ => eval_leaf r field op v :: stack
  | Not, a :: s => negb a :: s
  | Or, a :: b :: s => (a || b) :: s
  | And, a :: b :: s => (a && b) :: s
  | _, _ => stack
  end.

Definition matches (dom : list domain_item) (r : procurement_rule) : bool :=
  forallb (λ b : bool, b) (foldr (domain_step r) [] dom).

(** ** Ordering *)

Definition rule_integer (field : string) (r : procurement_rule) : Z :=
  if String.eqb field "route_sequence" then rule_route_sequence r
  else if String.eqb field "sequence" then rule_sequence r
  else 0%Z.

(** [order='f1, f2']: the key of a row is the list of its values of
    [f1], [f2]; keys compare lexicographically. *)
Definition order_key (order : list string) (r : procurement_rule) : list Z :=
  (λ f, rule_integer f r) <$> order.

Fixpoint lex_leb (k1 k2 : list Z) : bool :=
  match k1, k2 with
  | [], _ => true
  | _ :: _, [] => false
  | a :: k1', b :: k2' => (a <? b)%Z || ((a =? b)%Z && lex_leb k1' k2')
  end.

Definition row_le (order : list string)
    (x y : record_id * procurement_rule) : Prop :=
  lex_leb (order_key order x.2) (order_key order y.2).

Global Instance row_le_dec order x y : Decision (row_le order x y) :=
  Is_true_dec (lex_leb (order_key order x.2) (order_key order y.2)).

(** [ProcurementRule.search(domain, order=..., limit=...)]: the ids of the
    rows that match, in the requested order, cut at the limit. *)
Definition search (dom : list domain_item) (order : list string)
    (limit : option nat) (st : db) : list record_id :=
  let hits := filter (λ x, matches dom x.2) (imap pair (rules st)) in
  let sorted := merge_sort (row_le order) hits in
  match limit with
  | Some n => take n sorted.*1
  | None => sorted.*1
  end.

(** ** Relational reads *)

(** The rows of a table that satisfy [p], by id. *)
Definition ids_where {A} (p : A → bool) (t : list A) : list record_id :=
  (filter (λ x, p x.2) (imap pair t)).*1.

(** A many2one that is unset, or whose target has no row, reads as the
    empty record. *)
Definition browse {A} (t : list A) (i : option record_id) : option A :=
  i ≫= (t !!.).

(** [line.reservation_ids]: one2many, inverse of
    [stock.reservation.sale_line_id]. *)
Definition reservation_ids (st : db) (line : record_id) : list record_id :=
  ids_where (λ r : stock_reservation,
               bool_decide (res_sale_line_id r = Some line))
            (reservations st).

(** [sale.order_line]: one2many, inverse of [sale.order.line.order_id]. *)
Definition order_line (st : db) (sale : record_id) : list record_id :=
  ids_where (λ l, bool_decide (line_order_id l = sale)) (lines st).

(** [recs.mapped(field)] for a one2many [field]: every record of [recs] is
    read, and the union of the values is returned without duplicates. *)
Definition mapped {A} (table : db → list A)
    (field : db → record_id → list record_id) (recs : list record_id)
    : M (list record_id) :=
  λ st, if forallb (λ i, bool_decide (is_Some (table st !! i))) recs
        then Ok (remove_dups (recs ≫= field st)) st
        else Raise MissingError st.

(** ** Writes *)

(** A value of a [vals] dictionary. *)
Inductive value :=
  | VFalse
  | VInt (n : nat)
  | VFloat (q : Z)
  | VStr (s : string).

Definition to_many2one (v : value) : option (option record_id) :=
  match v with
  | VFalse => Some None
  | VInt n => Some (Some n)
  | _ => None
  end.

Definition to_float (v : value) : option Z :=
  match v with
  | VFalse => Some 0%Z
  | VInt n => Some (Z.of_nat n)
  | VFloat q => Some q
  | VStr _ => None
  end.

Definition to_char (v : value) : option string :=
  match v with
  | VStr s => Some s
  | _ => None
  end.

(** One key of [vals] on one record: absent, the record is kept; present
    with a value of the field's type, the field is set; otherwise the
    conversion fails. *)
Definition assign {R T} (v : option value) (conv : value → option T)
    (set : T → R → R) (r : R) : option R :=
  match v with
  | None => Some r
  | Some x => (λ t, set t r) <$> conv x
  end.

Definition set_line_product_id (x : option record_id) (l : sale_order_line) :=
  {| line_order_id := line_order_id l; line_name := line_name l;
     line_state := line_state l; line_product_id := x;
     line_product_uom := line_product_uom l;
     line_product_uom_qty := line_product_uom_qty l;
     line_price_unit := line_price_unit l;
     line_stock_owner_id := line_stock_owner_id l;
     line_is_stock_reservable := line_is_stock_reservable l |}.

Definition set_line_product_uom (x : option record_id) (l : sale_order_line) :=
  {| line_order_id := line_order_id l; line_name := line_name l;
     line_state := line_state l; line_product_id := line_product_id l;
     line_product_uom := x;
     line_product_uom_qty := line_product_uom_qty l;
     line_price_unit := line_price_unit l;
     line_stock_owner_id := line_stock_owner_id l;
     line_is_stock_reservable := line_is_stock_reservable l |}.

Definition set_line_product_uom_qty (x : Z) (l : sale_order_line) :=
  {| line_order_id := line_order_id l; line_name := line_name l;
     line_state := line_state l; line_product_id := line_product_id l;
     line_product_uom := line_product_uom l;
     line_product_uom_qty := x;
     line_price_unit := line_price_unit l;
     line_stock_owner_id := line_stock_owner_id l;
     line_is_stock_reservable := line_is_stock_reservable l |}.

Definition set_line_price_unit (x : Z) (l : sale_order_line) :=
  {| line_order_id := line_order_id l; line_name := line_name l;
     line_state := line_state l; line_product_id := line_product_id l;
     line_product_uom := line_product_uom l;
     line_product_uom_qty := line_product_uom_qty l;
     line_price_unit := x;
     line_stock_owner_id := line_stock_owner_id l;
     line_is_stock_reservable := line_is_stock_reservable l |}.

Definition set_line_name (x : string) (l : sale_order_line) :=
  {| line_order_id := line_order_id l; line_name := x;
     line_state := line_state l; line_product_id := line_product_id l;
     line_product_uom := line_product_uom l;
     line_product_uom_qty := line_product_uom_qty l;
     line_price_unit := line_price_unit l;
     line_stock_owner_id := line_stock_owner_id l;
     line_is_stock_reservable := line_is_stock_reservable l |}.

Definition set_line_is_stock_reservable (x : bool) (l : sale_order_line) :=
  {| line_order_id := line_order_id l; line_name := line_name l;
     line_state := line_state l; line_product_id := line_product_id l;
     line_product_uom := line_product_uom l;
     line_product_uom_qty := line_product_uom_qty l;
     line_price_unit := line_price_unit l;
     line_stock_owner_id := line_stock_owner_id l;
     line_is_stock_reservable := x |}.

(** [vals] applied to one order line.  Only the fields of the line that
    the module reads are written; every other key is ignored.  That is
    what the host does with a key that names no field (it logs a warning);
    keys of fields this model does not write ([order_id], [state],
    commands on [reservation_ids]) are outside it. *)
Definition line_write_vals (vals : gmap string value) (l : sale_order_line)
    : option sale_order_line :=
  l ← assign (vals !! "product_id") to_many2one set_line_product_id l;
  l ← assign (vals !! "product_uom") to_many2one set_line_product_uom l;
  l ← assign (vals !! "product_uom_qty") to_float set_line_product_uom_qty l;
  l ← assign (vals !! "price_unit") to_float set_line_price_unit l;
  assign (vals !! "name") to_char set_line_name l.

Definition set_res_price_unit (x : Z) (r : stock_reservation) :=
  {| res_vals :=
       {| res_product_id := res_product_id r;
          res_product_uom := res_product_uom r;
          res_product_uom_qty := res_product_uom_qty r;
          res_date_validity := res_date_validity r;
          res_name := res_name r; res_note := res_note r;
          res_price_unit := x;
          res_sale_line_id := res_sale_line_id r;
          res_partner_id := res_partner_id r;
          res_restrict_partner_id := res_restrict_partner_id r;
          res_group_id := res_group_id r |};
     res_status := res_status r |}.

Definition set_res_product_uom_qty (x : Z) (r : stock_reservation) :=
  {| res_vals :=
       {| res_product_id := res_product_id r;
          res_product_uom := res_product_uom r;
          res_product_uom_qty := x;
          res_date_validity := res_date_validity r;
          res_name := res_name r; res_note := res_note r;
          res_price_unit := res_price_unit r;
          res_sale_line_id := res_sale_line_id r;
          res_partner_id := res_partner_id r;
          res_restrict_partner_id := res_restrict_partner_id r;
          res_group_id := res_group_id r |};
     res_status := res_status r |}.

Definition set_res_sale_line_id (x : option record_id) (r : stock_reservation) :=
  {| res_vals :=
       {| res_product_id := res_product_id r;
          res_product_uom := res_product_uom r;
          res_product_uom_qty := res_product_uom_qty r;
          res_date_validity := res_date_validity r;
          res_name := res_name r; res_note := res_note r;
          res_price_unit := res_price_unit r;
          res_sale_line_id := x;
          res_partner_id := res_partner_id r;
          res_restrict_partner_id := res_restrict_partner_id r;
          res_group_id := res_group_id r |};
     res_status := res_status r |}.

Definition set_res_status (x : reservation_status) (r : stock_reservation) :=
  {| res_vals := res_vals r; res_status := x |}.

(** [vals] applied to one reservation: the two keys the module writes. *)
Definition reservation_write_vals (vals : gmap string value)
    (r : stock_reservation) : option stock_reservation :=
  r ← assign (vals !! "price_unit") to_float set_res_price_unit r;
  assign (vals !! "product_uom_qty") to_float set_res_product_uom_qty r.

(** [recs.write(vals)] of the host on a table, as far as the module
    relies on it: every record must have a row and every value must
    convert; then each row of [recs] is updated.  The stand-in writes
    nothing when it raises, and does not re-run the computes that depend
    on the written fields. *)
Definition orm_write {A} (table : db → list A) (set_table : list A → db → db)
    (write_vals : gmap string value → A → option A)
    (recs : list record_id) (vals : gmap string value) : M bool :=
  λ st,
    match mapM (λ i, table st !! i) recs with
    | None => Raise MissingError st
    | Some rows =>
        match mapM (write_vals vals) rows with
        | None => Raise ValueError st
        | Some _ =>
            Ok true (set_table
                       (foldr (alter (λ r, default r (write_vals vals r)))
                              (table st) recs) st)
        end
    end.

(** [create(vals)] of the host: a new row at the end of the table; its id
    is returned. *)
Definition create_reservation (vals : reservation_vals) : M record_id :=
  λ st, Ok (length (reservations st))
           (set_reservations
              (reservations st ++ [{| res_vals := vals; res_status := Draft |}])
              st).

Definition create_group (vals : procurement_group) : M record_id :=
  λ st, Ok (length (groups st)) (set_groups (groups st ++ [vals]) st).

(** [super()._action_confirm()] and [super().action_cancel()]: what the
    host does on confirmation and cancellation (it writes the state of the
    order, among others) lies outside the module; only the call is
    recorded, for the order in which the calls are made. *)
Definition super_action_confirm (self : list record_id) : M bool :=
  modify (emit (CallSuperActionConfirm self)) ;;; ret true.

Definition super_action_cancel (self : list record_id) : M bool :=
  modify (emit (CallSuperActionCancel self)) ;;; ret true.

(** ** The reservation entity *)

(** Modelled from the spec: [stock.reservation.reserve] is declared in
    another module of the repository.  The call is recorded and the
    reservations become reserved. *)
Definition reserve (self : list record_id) : M bool :=
  modify (emit (CallReserve self)) ;;;
  modify (λ st, set_reservations
                  (foldr (alter (set_res_status Reserved)) (reservations st) self)
                  st) ;;;
  ret true.

(** Modelled from the spec: [stock.reservation.release] is declared in
    another module of the repository.  The call is recorded; the
    reservations become released and leave their order line, which is what
    the message of [SaleOrderLine.write] relies on when it asks to release
    the reservation before changing the product. *)
Definition release (self : list record_id) : M bool :=
  modify (emit (CallRelease self)) ;;;
  modify (λ st, set_reservations
                  (foldr (alter (λ r, set_res_status Released
                                        (set_res_sale_line_id None r)))
                         (reservations st) self)
                  st) ;;;
  ret true.

(** * class SaleOrderLine *)

Module SaleOrderLine.

(** [_get_line_rule]: the rule found for the product's routes or, when
    there is none, for the warehouse of the order; [None] is the
    [False] of the source. *)
Definition _get_line_rule (st : db) (self : sale_order_line)
    : option record_id :=
  let product := browse (products st) (line_product_id self) in
  let product_route_ids :=
    from_option product_route_ids [] product ++
    from_option categ_total_route_ids []
      (browse (categories st) (product ≫= product_categ_id)) in
  let rules :=
    search [Leaf "route_id" "in" (DIds product_route_ids)]
           ["route_sequence"; "sequence"] (Some 1) st in
  let rules :=
    if bool_decide (rules = []) then
      let warehouse :=
        browse (orders st) (Some (line_order_id self))
          ≫= order_warehouse_id in
      let wh_route_ids :=
        from_option warehouse_route_ids []
                    (browse (warehouses st) warehouse) in
      let domain :=
        [Or; Leaf "warehouse_id" "=" (from_option DId DFalse warehouse);
         Leaf "warehouse_id" "=" DFalse;
         Leaf "route_id" "in" (DIds wh_route_ids)] in
      search domain ["route_sequence"; "sequence"] (Some 1) st
    else rules in
  if bool_decide (rules ≠ []) then rules !! 0
  else None.

(** [_get_procure_method]: the method of that rule, or [None] for
    [False]. *)
Definition _get_procure_method (st : db) (self : sale_order_line)
    : option string :=
  let rule := _get_line_rule st self in
  match rule with
  | Some _ => rule_procure_method <$> browse (rules st) rule
  | None => None
  end.

(** The condition of [_compute_is_stock_reservation] on one line. *)
Definition reservable_condition (st : db) (line : record_id)
    (l : sale_order_line) : bool :=
  negb (negb (String.eqb (line_state l) "draft")
        || bool_decide (_get_procure_method st l = Some "make_to_order")
        || negb (bool_decide (is_Some (line_product_id l)))
        || bool_decide (product_type <$> browse (products st) (line_product_id l)
                        = Some "service"))
  && negb (bool_decide (reservation_ids st line ≠ [])).

(** The body of the loop of [_compute_is_stock_reservation]. *)
Definition compute_line (line : record_id) : M unit :=
  let! l := read lines line in
  let! st := get in
  let reservable := if reservable_condition st line l then true else false in
  modify (λ st, set_lines
                  (alter (set_line_is_stock_reservable reservable) line
                         (lines st)) st).

Definition _compute_is_stock_reservation (self : list record_id) : M unit :=
  for_each self compute_line.

Definition set_order_procurement_group_id (x : option record_id)
    (o : sale_order) : sale_order :=
  {| order_name := order_name o; order_state := order_state o;
     order_warehouse_id := order_warehouse_id o;
     order_picking_policy := order_picking_policy o;
     order_partner_shipping_id := order_partner_shipping_id o;
     order_procurement_group_id := x;
     order_has_stock_reservation := order_has_stock_reservation o;
     order_is_stock_reservable := order_is_stock_reservable o |}.

(** [_prepare_stock_reservation], on the single line [self]. *)
Definition _prepare_stock_reservation (self : record_id)
    (date_validity note : option string) : M reservation_vals :=
  let! l := read lines self in
  let owner_id := line_stock_owner_id l in
  let! o := read orders (line_order_id l) in
  (if negb (bool_decide (is_Some (order_procurement_group_id o))) then
     let! group_id :=
       create_group {| group_name := order_name o;
                       group_move_type := order_picking_policy o;
                       group_sale_id := line_order_id l;
                       group_partner_id := order_partner_shipping_id o |} in
     modify (λ st, set_orders
                     (alter (set_order_procurement_group_id (Some group_id))
                            (line_order_id l) (orders st)) st)
   else ret tt) ;;;
  let! o := read orders (line_order_id l) in
  ret {| res_product_id := line_product_id l;
         res_product_uom := line_product_uom l;
         res_product_uom_qty := line_product_uom_qty l;
         res_date_validity := date_validity;
         res_name := order_name o +:+ " (" +:+ line_name l +:+ ")";
         res_note := note;
         res_price_unit := line_price_unit l;
         res_sale_line_id := Some self;
         res_partner_id := order_partner_shipping_id o;
         res_restrict_partner_id := owner_id;
         res_group_id := order_procurement_group_id o |}.

(** One turn of the loop of [acquire_stock_reservation]. *)
Definition acquire_line (date_validity note : option string)
    (reservations : list record_id) (line : record_id)
    : M (list record_id) :=
  let! l := read lines line in
  if negb (line_is_stock_reservable l) then ret reservations
  else
    let! vals := _prepare_stock_reservation line date_validity note in
    let! new := create_reservation vals in
    ret (remove_dups (reservations ++ [new])).

Fixpoint acquire_loop (date_validity note : option string)
    (reservations : list record_id) (self : list record_id)
    : M (list record_id) :=
  match self with
  | [] => ret reservations
  | line :: rest =>
      let! reservations := acquire_line date_validity note reservations line in
      acquire_loop date_validity note reservations rest
  end.

Definition acquire_stock_reservation (self : list record_id)
    (date_validity note : option string) : M bool :=
  let! reservations := acquire_loop date_validity note [] self in
  reserve reservations ;;;
  ret true.

Definition release_stock_reservation (self : list record_id) : M bool :=
  let! reservations := mapped lines reservation_ids self in
  release reservations ;;;
  ret true.

Definition several_reservations_msg : string :=
  "Several stock reservations are linked with the line. Impossible to adjust their quantity. Please release the reservation before changing the quantity.".

(** The body of the loop of [_update_reservation_price_qty]. *)
Definition update_line (line : record_id) : M unit :=
  let! l := read lines line in
  let! st := get in
  let reservation_ids := reservation_ids st line in
  if negb (bool_decide (reservation_ids ≠ [])) then ret tt
  else if bool_decide (1 < length reservation_ids) then
    raise (UserError several_reservations_msg)
  else
    orm_write reservations set_reservations reservation_write_vals
      reservation_ids
      (<["price_unit" := VFloat (line_price_unit l)]>
         (<["product_uom_qty" := VFloat (line_product_uom_qty l)]> ∅)) ;;;
    ret tt.

Definition _update_reservation_price_qty (self : list record_id) : M unit :=
  for_each self update_line.

Definition _test_block_on_reserve (vals : gmap string value) : gset string :=
  let block_on_reserve := ["product_id"; "product_uom_id"; "type"] in
  let keys := dom vals in
  let test_block := keys ∩ list_to_set block_on_reserve in
  test_block.

Definition _test_update_on_reserve (vals : gmap string value) : gset string :=
  let update_on_reserve := ["price_unit"; "product_uom_qty"] in
  let keys := dom vals in
  let test_update := keys ∩ list_to_set update_on_reserve in
  test_update.

Definition reserved_line_msg : string :=
  "You cannot change the product or unit of measure of lines with a stock reservation. Release the reservation before changing the product.".

(** [write]; [super().write(vals)] is the host's write on the lines. *)
Definition write (self : list record_id) (vals : gmap string value) : M bool :=
  let! blocked :=
    (if bool_decide (_test_block_on_reserve vals ≠ ∅) then
       let! reservations := mapped lines reservation_ids self in
       ret (bool_decide (0 < length reservations))
     else ret false) in
  if (blocked : bool) then raise (UserError reserved_line_msg)
  else
    let! res := orm_write lines set_lines line_write_vals self vals in
    (if bool_decide (_test_update_on_reserve vals ≠ ∅)
     then _update_reservation_price_qty self
     else ret tt) ;;;
    ret res.

End SaleOrderLine.

(** * class SaleOrder *)

Module SaleOrder.

Definition set_order_stock_reservation (has_stock_reservation
    is_stock_reservable : bool) (o : sale_order) : sale_order :=
  {| order_name := order_name o; order_state := order_state o;
     order_warehouse_id := order_warehouse_id o;
     order_picking_policy := order_picking_policy o;
     order_partner_shipping_id := order_partner_shipping_id o;
     order_procurement_group_id := order_procurement_group_id o;
     order_has_stock_reservation := has_stock_reservation;
     order_is_stock_reservable := is_stock_reservable |}.

(** The inner loop of [_compute_stock_reservation]: the two flags after
    the lines seen so far. *)
Definition scan_line (st : db) (flags : bool * bool) (line : record_id)
    : bool * bool :=
  let has_stock_reservation :=
    if bool_decide (reservation_ids st line ≠ []) then true else flags.1 in
  let is_stock_reservable :=
    if from_option line_is_stock_reservable false (lines st !! line)
    then true else flags.2 in
  (has_stock_reservation, is_stock_reservable).

(** The body of the outer loop of [_compute_stock_reservation]. *)
Definition compute_sale (sale : record_id) : M unit :=
  let! o := read orders sale in
  let! st := get in
  let flags := foldl (scan_line st) (false, false) (order_line st sale) in
  let is_stock_reservable :=
    if negb (bool_decide (order_state o ∈ ["draft"; "sent"]))
    then false else flags.2 in
  modify (λ st, set_orders
                  (alter (set_order_stock_reservation flags.1
                                                      is_stock_reservable)
                         sale (orders st)) st).

Definition _compute_stock_reservation (self : list record_id) : M unit :=
  for_each self compute_sale.

Definition release_all_stock_reservation (self : list record_id) : M bool :=
  let! lines := mapped orders order_line self in
  SaleOrderLine.release_stock_reservation lines ;;;
  ret true.

Definition _action_confirm (self : list record_id) : M bool :=
  release_all_stock_reservation self ;;;
  super_action_confirm self.

Definition action_cancel (self : list record_id) : M bool :=
  release_all_stock_reservation self ;;;
  super_action_cancel self.

End SaleOrder.

(** * The rule lookup, as the specification words it *)

(** The routes of the product of a line, then those of its category. *)
Definition product_routes (st : db) (l : sale_order_line) : list record_id :=
  let product := browse (products st) (line_product_id l) in
  from_option product_route_ids [] product ++
  from_option categ_total_route_ids []
    (browse (categories st) (product ≫= product_categ_id)).

(** The warehouse of the order of a line, and its routes. *)
Definition line_warehouse (st : db) (l : sale_order_line)
    : option record_id :=
  browse (orders st) (Some (line_order_id l)) ≫= order_warehouse_id.

Definition warehouse_routes (st : db) (l : sale_order_line)
    : list record_id :=
  from_option warehouse_route_ids []
              (browse (warehouses st) (line_warehouse st l)).

(** First tier: the route of the rule is among the routes of the product
    and of its category. *)
Definition product_rule (st : db) (l : sale_order_line)
    (r : procurement_rule) : Prop :=
  ∃ route, rule_route_id r = Some route ∧ route ∈ product_routes st l.

(** Second tier: the rule is for the warehouse of the order, or for no
    warehouse, and its route is among the routes of the warehouse. *)
Definition warehouse_rule (st : db) (l : sale_order_line)
    (r : procurement_rule) : Prop :=
  (rule_warehouse_id r = line_warehouse st l ∨ rule_warehouse_id r = None)
  ∧ ∃ route, rule_route_id r = Some route ∧ route ∈ warehouse_routes st l.

(** [r] comes no later than [r'] by [route_sequence], then [sequence]. *)
Definition before (r r' : procurement_rule) : Prop :=
  (rule_route_sequence r < rule_route_sequence r')%Z
  ∨ (rule_route_sequence r = rule_route_sequence r'
     ∧ (rule_sequence r ≤ rule_sequence r')%Z).

(** The rule [i] satisfies [P] and comes before every rule that does. *)
Definition first_rule (P : procurement_rule → Prop) (st : db)
    (i : record_id) : Prop :=
  ∃ r, rules st !! i = Some r ∧ P r
       ∧ ∀ j r', rules st !! j = Some r' → P r' → before r r'.

Definition no_rule (P : procurement_rule → Prop) (st : db) : Prop :=
  ∀ j r, rules st !! j = Some r → ¬ P r.

(** * The cascade of [write], as a function of the rows

    What [_update_reservation_price_qty] has done to a reservation once it
    has gone through the lines [done]: a reservation of one of these lines
    carries the price and the quantity of its line, any other reservation
    is as it was. *)
Definition sync_reservation (st : db) (done : list record_id)
    (x : stock_reservation) : stock_reservation :=
  match res_sale_line_id x
        ≫= (λ line, if bool_decide (line ∈ done) then lines st !! line
                     else None) with
  | Some l =>
      set_res_product_uom_qty (line_product_uom_qty l)
        (set_res_price_unit (line_price_unit l) x)
  | None => x
  end.

(** The store after the cascade has gone through the lines [done]. *)
Definition synced (st : db) (done : list record_id) : db :=
  set_reservations (sync_reservation st done <$> reservations st) st.

(** What [write] does once the guard on reserved lines has let it
    through. *)
Definition write_through (self : list record_id) (vals : gmap string value)
    : M bool :=
  let! res := orm_write lines set_lines line_write_vals self vals in
  (if bool_decide (SaleOrderLine._test_update_on_reserve vals ≠ ∅)
   then SaleOrderLine._update_reservation_price_qty self
   else ret tt) ;;;
  ret res.

(** * What [acquire_stock_reservation] leaves behind *)

(** The values of the reservation of the line [self], whose row is [l],
    on an order whose row is [o]. *)
Definition reservation_vals_of (l : sale_order_line) (o : sale_order)
    (self : record_id) (date_validity note : option string)
    : reservation_vals :=
  {| res_product_id := line_product_id l;
     res_product_uom := line_product_uom l;
     res_product_uom_qty := line_product_uom_qty l;
     res_date_validity := date_validity;
     res_name := order_name o +:+ " (" +:+ line_name l +:+ ")";
     res_note := note;
     res_price_unit := line_price_unit l;
     res_sale_line_id := Some self;
     res_partner_id := order_partner_shipping_id o;
     res_restrict_partner_id := line_stock_owner_id l;
     res_group_id := order_procurement_group_id o |}.

(** [x] is the reservation of the line [line]: it holds the values of the
    line, and the procurement group of its order, which exists. *)
Definition reservation_for (st : db) (date_validity note : option string)
    (line : record_id) (x : stock_reservation) : Prop :=
  ∃ l o, lines st !! line = Some l
         ∧ orders st !! line_order_id l = Some o
         ∧ is_Some (order_procurement_group_id o)
         ∧ res_vals x = reservation_vals_of l o line date_validity note.

(** An order is as it was, or it had no procurement group and has been
    given one. *)
Definition order_le (o o' : sale_order) : Prop :=
  o' = o
  ∨ (order_procurement_group_id o = None
     ∧ ∃ g, o' = SaleOrderLine.set_order_procurement_group_id (Some g) o).

(** The store [st'] differs from [st] by procurement groups that were
    created for orders that had none. *)
Record extends (st st' : db) : Prop := {
  ext_products : products st' = products st;
  ext_categories : categories st' = categories st;
  ext_warehouses : warehouses st' = warehouses st;
  ext_rules : rules st' = rules st;
  ext_lines : lines st' = lines st;
  ext_trace : trace st' = trace st;
  ext_groups : groups st `prefix_of` groups st';
  ext_orders : Forall2 order_le (orders st) (orders st');
  ext_created :
    ∀ i o' g, orders st' !! i = Some o' →
              order_procurement_group_id o' = Some g →
              (∃ o, orders st !! i = Some o
                    ∧ order_procurement_group_id o = Some g)
              ∨ (∃ grp, groups st' !! g = Some grp ∧ group_sale_id grp = i)
}.

(** The lines of [self] that are flagged reservable in [st]. *)
Definition reservable_lines (st : db) (self : list record_id)
    : list record_id :=
  filter (λ line, from_option line_is_stock_reservable false
                              (lines st !! line) = true) self.

(** Every line of [self] has a row, and so has its order. *)
Definition lines_with_order (st : db) (self : list record_id) : Prop :=
  ∀ line, line ∈ self →
    ∃ l, lines st !! line = Some l ∧ is_Some (orders st !! line_order_id l).

(** The reservations linked to the lines of [self]. *)
Definition linked_reservations (st : db) (self : list record_id)
    : list record_id :=
  remove_dups (self ≫= reservation_ids st).

(** The row of a reservation once it has been released. *)
Definition released (x : stock_reservation) : stock_reservation :=
  set_res_status Released (set_res_sale_line_id None x).

(** The reservations linked to the lines of the orders [self]. *)
Definition order_reservations (st : db) (self : list record_id)
    : list record_id :=
  linked_reservations st (remove_dups (self ≫= order_line st)).

(** Between [st] and [st'] every reservation of a line of the orders
    [self] has been released, and no reservation that is not released is
    linked to one of these lines in [st']. *)
Definition reservations_released (self : list record_id) (st st' : db)
    : Prop :=
  (∀ sale line r,
     sale ∈ self → line ∈ order_line st sale → r ∈ reservation_ids st line →
     r ∈ order_reservations st self
     ∧ ∃ x, reservations st' !! r = Some x ∧ res_status x = Released)
  ∧ (∀ sale line r x,
       sale ∈ self → line ∈ order_line st' sale →
       r ∈ reservation_ids st' line → reservations st' !! r = Some x →
       res_status x = Released).

(** * A store to run the methods on

    One draft order with three lines on a stockable product: line 0 has no
    reservation and is flagged reservable, line 1 has one reservation
    (reservation 0), line 2 has two (reservations 1 and 2).  Line 3, on a
    second order that is already confirmed, is on a service. *)

Definition demo_line (order : record_id) (name state : string)
    (product : option record_id) (qty price : Z) (reservable : bool)
    : sale_order_line :=
  {| line_order_id := order; line_name := name; line_state := state;
     line_product_id := product; line_product_uom := Some 0;
     line_product_uom_qty := qty; line_price_unit := price;
     line_stock_owner_id := None; line_is_stock_reservable := reservable |}.

Definition demo_reservation (line : record_id) (qty price : Z)
    : stock_reservation :=
  {| res_vals :=
       {| res_product_id := Some 0; res_product_uom := Some 0;
          res_product_uom_qty := qty; res_date_validity := None;
          res_name := "SO001 (chair)"; res_note := None;
          res_price_unit := price; res_sale_line_id := Some line;
          res_partner_id := Some 7; res_restrict_partner_id := None;
          res_group_id := None |};
     res_status := Reserved |}.

Definition demo_order (name state : string) : sale_order :=
  {| order_name := name; order_state := state;
     order_warehouse_id := Some 0; order_picking_policy := "direct";
     order_partner_shipping_id := Some 7;
     order_procurement_group_id := None;
     order_has_stock_reservation := false;
     order_is_stock_reservable := false |}.

Definition demo_rule (route : record_id) (warehouse : option record_id)
    (route_sequence sequence : Z) (method : string) : procurement_rule :=
  {| rule_route_id := Some route; rule_warehouse_id := warehouse;
     rule_route_sequence := route_sequence; rule_sequence := sequence;
     rule_procure_method := method |}.

Definition demo_db : db :=
  {| products :=
       [ {| product_type := "product"; product_route_ids := [1];
            product_categ_id := Some 0 |};
         {| product_type := "service"; product_route_ids := [];
            product_categ_id := None |} ];
     categories := [ {| categ_total_route_ids := [3] |} ];
     warehouses := [ {| warehouse_route_ids := [2] |} ];
     rules :=
       [ demo_rule 2 None 5 1 "make_to_order";
         demo_rule 1 None 5 3 "make_to_order";
         demo_rule 3 None 5 2 "make_to_stock" ];
     groups := [];
     orders := [ demo_order "SO001" "draft"; demo_order "SO002" "sale" ];
     lines :=
       [ demo_line 0 "chair" "draft" (Some 0) 3 10 true;
         demo_line 0 "table" "draft" (Some 0) 1 80 false;
         demo_line 0 "lamp" "draft" (Some 0) 4 20 false;
         demo_line 1 "delivery" "sale" (Some 1) 1 15 false ];
     reservations :=
       [ demo_reservation 1 1 80;
         demo_reservation 2 2 20;
         demo_reservation 2 2 20 ];
     trace := [] |}.

(** Dictionaries to write on the lines of [demo_db]. *)
Definition demo_product_vals : gmap string value :=
  {[ "product_id" := VInt 1 ]}.

Definition demo_price_vals : gmap string value :=
  <[ "price_unit" := VFloat 95 ]> {[ "product_uom_qty" := VFloat 2 ]}.


(** * Words for the further properties *)

(** [vals] holds a key of the guard on reserved lines. *)
Definition has_block_key (vals : gmap string value) : Prop :=
  is_Some (vals !! "product_id") ∨ is_Some (vals !! "product_uom_id")
  ∨ is_Some (vals !! "type").

(** [vals] holds a key of the cascade onto the reservations. *)
Definition has_update_key (vals : gmap string value) : Prop :=
  is_Some (vals !! "price_unit") ∨ is_Some (vals !! "product_uom_qty").

(** Two rows of an order line that differ at most by the stored flag. *)
Definition same_but_flag (l l' : sale_order_line) : Prop :=
  l' = set_line_is_stock_reservable (line_is_stock_reservable l') l.

(** Two rows of an order that differ at most by the two stored flags. *)
Definition same_but_flags (o o' : sale_order) : Prop :=
  o' = SaleOrder.set_order_stock_reservation
         (order_has_stock_reservation o') (order_is_stock_reservable o') o.

(** * Properties *)

(** Case analysis on the membership of a variable in a list given by its
    elements. *)
Local Ltac members H :=
  repeat (apply elem_of_cons in H as [->|H]);
  [..|by apply elem_of_nil in H].

(** ** The monad and the store *)

Lemma set_lines_set_lines t t' st :
  set_lines t' (set_lines t st) = set_lines t' st.
Proof. reflexivity. Qed.

Lemma set_lines_id st : set_lines (lines st) st = st.
Proof. by destruct st. Qed.

Lemma set_orders_id st : set_orders (orders st) st = st.
Proof. by destruct st. Qed.

Lemma set_reservations_id st : set_reservations (reservations st) st = st.
Proof. by destruct st. Qed.

Lemma read_Some {A} (table : db → list A) i st r :
  table st !! i = Some r → read table i st = Ok r st.
Proof. unfold read. by intros ->. Qed.

Lemma read_None {A} (table : db → list A) i st :
  table st !! i = None → read table i st = Raise MissingError st.
Proof. unfold read. by intros ->. Qed.

(** ** One2many reads *)

Lemma elem_of_ids_where {A} (p : A → bool) (t : list A) i :
  i ∈ ids_where p t ↔ ∃ x, t !! i = Some x ∧ p x = true.
Proof.
  unfold ids_where. rewrite list_elem_of_fmap. split.
  - intros [[j x] [-> Hin]]. apply list_elem_of_filter in Hin as [Hp Hin].
    apply elem_of_lookup_imap in Hin as (k & y & Heq & Hk).
    simplify_eq/=. exists y. split; [done|]. by apply Is_true_true.
  - intros (x & Hx & Hp). exists (i, x). split; [done|].
    apply list_elem_of_filter. split; [by apply Is_true_true|].
    apply elem_of_lookup_imap. eauto.
Qed.

Lemma ids_where_nil_iff {A} (p : A → bool) (t : list A) :
  ids_where p t = [] ↔ ∀ i x, t !! i = Some x → p x = false.
Proof.
  split.
  - intros Hnil i x Hx. destruct (p x) eqn:Hp; [|done].
    assert (i ∈ ids_where p t) as Hin by (apply elem_of_ids_where; eauto).
    rewrite Hnil in Hin. by apply elem_of_nil in Hin.
  - intros Hall. destruct (ids_where p t) as [|i l] eqn:Heq; [done|].
    assert (i ∈ ids_where p t) as Hin by (rewrite Heq; left).
    apply elem_of_ids_where in Hin as (x & Hx & Hp).
    rewrite (Hall _ _ Hx) in Hp. done.
Qed.

Lemma elem_of_reservation_ids st line r :
  r ∈ reservation_ids st line ↔
  ∃ x : stock_reservation,
    reservations st !! r = Some x ∧ res_sale_line_id x = Some line.
Proof.
  unfold reservation_ids. rewrite elem_of_ids_where.
  split; intros (x & Hx & Hp); exists x; split; try done.
  - by apply bool_decide_eq_true in Hp.
  - by apply bool_decide_eq_true.
Qed.

Lemma elem_of_order_line st sale line :
  line ∈ order_line st sale ↔
  ∃ l, lines st !! line = Some l ∧ line_order_id l = sale.
Proof.
  unfold order_line. rewrite elem_of_ids_where.
  split; intros (x & Hx & Hp); exists x; split; try done.
  - by apply bool_decide_eq_true in Hp.
  - by apply bool_decide_eq_true.
Qed.

(** ** Running binds and loops *)

Lemma bind_Ok {A B} (c : M A) (k : A → M B) st a st' :
  c st = Ok a st' → bind c k st = k a st'.
Proof. unfold bind. by intros ->. Qed.

Lemma bind_Raise {A B} (c : M A) (k : A → M B) st e st' :
  c st = Raise e st' → bind c k st = Raise e st'.
Proof. unfold bind. by intros ->. Qed.

Lemma for_each_cons {A} (x : A) xs body st st' :
  body x st = Ok tt st' → for_each (x :: xs) body st = for_each xs body st'.
Proof. intros H. simpl. by rewrite (bind_Ok _ _ _ _ _ H). Qed.

Lemma for_each_cons_Raise {A} (x : A) xs body st e st' :
  body x st = Raise e st' → for_each (x :: xs) body st = Raise e st'.
Proof. intros H. simpl. by rewrite (bind_Raise _ _ _ _ _ H). Qed.

(** ** The computed field of the order line *)

(** The condition reads neither the stored flag nor the table of lines. *)
Lemma reservable_condition_frame t st i b l :
  SaleOrderLine.reservable_condition (set_lines t st) i
    (set_line_is_stock_reservable b l)
  = SaleOrderLine.reservable_condition st i l.
Proof. reflexivity. Qed.

Lemma compute_line_Ok line st l :
  lines st !! line = Some l →
  SaleOrderLine.compute_line line st
  = Ok tt (set_lines
             (alter (set_line_is_stock_reservable
                       (SaleOrderLine.reservable_condition st line l))
                    line (lines st)) st).
Proof.
  intros Hl. unfold SaleOrderLine.compute_line.
  rewrite (bind_Ok _ _ _ _ _ (read_Some _ _ _ _ Hl)).
  unfold bind, get, modify.
  by destruct (SaleOrderLine.reservable_condition st line l).
Qed.

(** The whole loop: it returns, and every line of [self] carries the
    condition evaluated on the store the loop started from. *)
Lemma compute_is_stock_reservation_spec self st :
  (∀ i, i ∈ self → is_Some (lines st !! i)) →
  ∃ t, SaleOrderLine._compute_is_stock_reservation self st
       = Ok tt (set_lines t st)
     ∧ ∀ i l, lines st !! i = Some l →
         t !! i = Some (if bool_decide (i ∈ self)
                        then set_line_is_stock_reservable
                               (SaleOrderLine.reservable_condition st i l) l
                        else l).
Proof.
  unfold SaleOrderLine._compute_is_stock_reservation.
  revert st. induction self as [|line rest IH]; intros st Hex.
  - exists (lines st). split; [by rewrite set_lines_id|]. by intros i l ->.
  - destruct (Hex line) as [l0 Hl0]; [left|].
    rewrite (for_each_cons _ _ _ _ _ (compute_line_Ok _ _ _ Hl0)).
    set (c0 := SaleOrderLine.reservable_condition st line l0).
    set (st1 := set_lines _ st).
    assert (Hstep : ∀ i l, lines st !! i = Some l →
              lines st1 !! i = Some (if bool_decide (i = line)
                                     then set_line_is_stock_reservable c0 l
                                     else l)).
    { intros i l Hi. simpl. case_bool_decide as Heq.
      - subst i. by rewrite list_lookup_alter_eq, Hi.
      - by rewrite list_lookup_alter_ne. }
    destruct (IH st1) as (t & Hrun & Ht).
    { intros i Hi. destruct (Hex i) as [l Hl]; [by right|].
      rewrite (Hstep _ _ Hl). eauto. }
    exists t. split; [by rewrite Hrun|].
    intros i l Hi. rewrite (Ht _ _ (Hstep _ _ Hi)). f_equal.
    destruct (decide (i = line)) as [->|Hne].
    + rewrite (bool_decide_eq_true_2 (line = line)) by done.
      rewrite (bool_decide_eq_true_2 (line ∈ line :: rest)) by left.
      assert (l = l0) as -> by congruence.
      by case_bool_decide.
    + rewrite (bool_decide_eq_false_2 (i = line)) by done.
      destruct (decide (i ∈ rest)) as [Hin|Hnin].
      * rewrite (bool_decide_eq_true_2 (i ∈ rest)) by done.
        by rewrite (bool_decide_eq_true_2 (i ∈ line :: rest)) by by right.
      * rewrite (bool_decide_eq_false_2 (i ∈ rest)) by done.
        rewrite (bool_decide_eq_false_2 (i ∈ line :: rest)); [done|].
        by intros [?|?]%elem_of_cons.
Qed.

(** C8.  On a recordset of existing lines [_compute_is_stock_reservation]
    returns, and afterwards a line of the recordset is flagged
    [is_stock_reservable] only if it has no linked reservation, its state
    is ['draft'], it has a product, the product is not a service and the
    procure method of its rule is not ['make_to_order']. *)
Theorem compute_is_stock_reservation_invariant self st :
  (∀ line, line ∈ self → is_Some (lines st !! line)) →
  ∃ st', SaleOrderLine._compute_is_stock_reservation self st = Ok tt st'
    ∧ ∀ line l, line ∈ self → lines st' !! line = Some l →
        line_is_stock_reservable l = true →
        reservation_ids st' line = []
        ∧ line_state l = "draft"
        ∧ is_Some (line_product_id l)
        ∧ product_type <$> browse (products st') (line_product_id l)
          ≠ Some "service"
        ∧ SaleOrderLine._get_procure_method st' l ≠ Some "make_to_order".
Proof.
  intros Hex. destruct (compute_is_stock_reservation_spec self st Hex)
    as (t & Hrun & Ht).
  exists (set_lines t st). split; [done|].
  intros line l Hin Hl Hres. destruct (Hex line Hin) as [l0 Hl0].
  simpl in Hl. rewrite (Ht _ _ Hl0), bool_decide_eq_true_2 in Hl by done.
  injection Hl as <-. simpl in Hres.
  unfold SaleOrderLine.reservable_condition in Hres.
  apply andb_true_iff in Hres as [Hguard Hfree].
  apply negb_true_iff in Hguard, Hfree.
  apply orb_false_iff in Hguard as [Hguard Hservice].
  apply orb_false_iff in Hguard as [Hguard Hproduct].
  apply orb_false_iff in Hguard as [Hstate Hmto].
  apply negb_false_iff in Hstate, Hproduct.
  apply bool_decide_eq_false in Hfree, Hservice, Hmto.
  apply bool_decide_eq_true in Hproduct.
  apply String.eqb_eq in Hstate.
  repeat split; try done.
  change (reservation_ids st line = []).
  destruct (reservation_ids st line); [done|]. by destruct Hfree.
Qed.

(** ** The computed fields of the order *)

Lemma scan_line_foldl st ls a b :
  foldl (SaleOrder.scan_line st) (a, b) ls
  = (a || existsb (λ line, bool_decide (reservation_ids st line ≠ [])) ls,
     b || existsb (λ line, from_option line_is_stock_reservable false
                                       (lines st !! line)) ls).
Proof.
  revert a b. induction ls as [|line ls IH]; intros a b; simpl.
  - by rewrite !orb_false_r.
  - unfold SaleOrder.scan_line at 2. simpl. rewrite IH. f_equal.
    + case_bool_decide; simpl; [by rewrite orb_true_r|done].
    + destruct (from_option _ _ _); simpl; [by rewrite orb_true_r|done].
Qed.

Lemma compute_sale_Ok sale st o :
  orders st !! sale = Some o →
  SaleOrder.compute_sale sale st
  = Ok tt (set_orders
             (alter (SaleOrder.set_order_stock_reservation
                       (foldl (SaleOrder.scan_line st) (false, false)
                              (order_line st sale)).1
                       (if negb (bool_decide (order_state o ∈ ["draft"; "sent"]))
                        then false
                        else (foldl (SaleOrder.scan_line st) (false, false)
                                    (order_line st sale)).2))
                    sale (orders st)) st).
Proof.
  intros Ho. unfold SaleOrder.compute_sale.
  by rewrite (bind_Ok _ _ _ _ _ (read_Some _ _ _ _ Ho)).
Qed.

Lemma compute_stock_reservation_spec self st :
  (∀ i, i ∈ self → is_Some (orders st !! i)) →
  ∃ t, SaleOrder._compute_stock_reservation self st = Ok tt (set_orders t st)
     ∧ ∀ i o, orders st !! i = Some o →
         t !! i = Some (if bool_decide (i ∈ self)
                        then SaleOrder.set_order_stock_reservation
                               (foldl (SaleOrder.scan_line st) (false, false)
                                      (order_line st i)).1
                               (if negb (bool_decide
                                           (order_state o ∈ ["draft"; "sent"]))
                                then false
                                else (foldl (SaleOrder.scan_line st)
                                            (false, false)
                                            (order_line st i)).2) o
                        else o).
Proof.
  unfold SaleOrder._compute_stock_reservation.
  revert st. induction self as [|sale rest IH]; intros st Hex.
  - exists (orders st). split; [by rewrite set_orders_id|]. by intros i l ->.
  - destruct (Hex sale) as [o0 Ho0]; [left|].
    rewrite (for_each_cons _ _ _ _ _ (compute_sale_Ok _ _ _ Ho0)).
    set (f0 := SaleOrder.set_order_stock_reservation _ _).
    set (st1 := set_orders _ st).
    assert (Hstep : ∀ i o, orders st !! i = Some o →
              orders st1 !! i = Some (if bool_decide (i = sale)
                                      then f0 o else o)).
    { intros i o Hi. simpl. case_bool_decide as Heq.
      - subst i. by rewrite list_lookup_alter_eq, Hi.
      - by rewrite list_lookup_alter_ne. }
    destruct (IH st1) as (t & Hrun & Ht).
    { intros i Hi. destruct (Hex i) as [o Ho]; [by right|].
      rewrite (Hstep _ _ Ho). eauto. }
    exists t. split; [by rewrite Hrun|].
    intros i o Hi. rewrite (Ht _ _ (Hstep _ _ Hi)). f_equal.
    destruct (decide (i = sale)) as [->|Hne].
    + rewrite (bool_decide_eq_true_2 (sale = sale)) by done.
      rewrite (bool_decide_eq_true_2 (sale ∈ sale :: rest)) by left.
      assert (o = o0) as -> by congruence.
      by case_bool_decide.
    + rewrite (bool_decide_eq_false_2 (i = sale)) by done.
      destruct (decide (i ∈ rest)) as [Hin|Hnin].
      * rewrite (bool_decide_eq_true_2 (i ∈ rest)) by done.
        by rewrite (bool_decide_eq_true_2 (i ∈ sale :: rest)) by by right.
      * rewrite (bool_decide_eq_false_2 (i ∈ rest)) by done.
        rewrite (bool_decide_eq_false_2 (i ∈ sale :: rest)); [done|].
        by intros [?|?]%elem_of_cons.
Qed.

(** C4.  On a recordset of existing orders [_compute_stock_reservation]
    returns, and afterwards every order of the recordset has a row in
    which [has_stock_reservation] is true exactly when one of its lines
    has a linked reservation, and [is_stock_reservable] is true exactly
    when one of its lines is flagged reservable and the state of the order
    is ['draft'] or ['sent']. *)
Theorem compute_stock_reservation_flags self st :
  (∀ sale, sale ∈ self → is_Some (orders st !! sale)) →
  ∃ st', SaleOrder._compute_stock_reservation self st = Ok tt st'
    ∧ ∀ sale, sale ∈ self →
        ∃ o, orders st' !! sale = Some o
          ∧ (order_has_stock_reservation o = true ↔
             ∃ line, line ∈ order_line st' sale
                     ∧ reservation_ids st' line ≠ [])
          ∧ (order_is_stock_reservable o = true ↔
             (∃ line l, line ∈ order_line st' sale
                        ∧ lines st' !! line = Some l
                        ∧ line_is_stock_reservable l = true)
             ∧ (order_state o = "draft" ∨ order_state o = "sent")).
Proof.
  intros Hex. destruct (compute_stock_reservation_spec self st Hex)
    as (t & Hrun & Ht).
  exists (set_orders t st). split; [done|].
  intros sale Hin. destruct (Hex sale Hin) as [o0 Ho0].
  eexists. split.
  { simpl. rewrite (Ht _ _ Ho0), bool_decide_eq_true_2 by done. done. }
  rewrite scan_line_foldl. simpl.
  change (order_line (set_orders t st) sale) with (order_line st sale).
  split.
  - rewrite existsb_exists. split.
    + intros (line & Hline & Hres). exists line.
      split; [by apply list_elem_of_In|]. by apply bool_decide_eq_true in Hres.
    + intros (line & Hline & Hres). exists line.
      split; [by apply list_elem_of_In|]. by apply bool_decide_eq_true.
  - case_bool_decide as Hstate; simpl.
    + rewrite existsb_exists. split.
      * intros (line & Hline & Hres). split.
        -- exists line. destruct (lines st !! line) as [l|] eqn:Hl; [|done].
           exists l. split; [by apply list_elem_of_In|done].
        -- apply elem_of_cons in Hstate as [?|Hstate]; [by left|].
           apply elem_of_cons in Hstate as [?|Hstate]; [by right|].
           by apply elem_of_nil in Hstate.
      * intros [(line & l & Hline & Hl & Hres) _]. exists line.
        split; [by apply list_elem_of_In|]. by rewrite Hl.
    + split; [done|]. intros [_ [Heq|Heq]]; destruct Hstate; rewrite Heq.
      * left.
      * right. left.
Qed.

(** ** Searching procurement rules *)

Lemma lex_leb_total k1 k2 : lex_leb k1 k2 = true ∨ lex_leb k2 k1 = true.
Proof.
  revert k2. induction k1 as [|a k1 IH]; intros [|b k2]; simpl; auto.
  destruct (IH k2) as [H|H]; rewrite H;
    destruct (Z.ltb_spec a b), (Z.ltb_spec b a),
             (Z.eqb_spec a b), (Z.eqb_spec b a); simpl; auto; lia.
Qed.

Lemma lex_leb_trans k1 k2 k3 :
  lex_leb k1 k2 = true → lex_leb k2 k3 = true → lex_leb k1 k3 = true.
Proof.
  revert k2 k3. induction k1 as [|a k1 IH]; intros [|b k2] [|c k3]; simpl;
    try done.
  intros H12 H23.
  apply orb_true_iff in H12 as [H12|[Hab H12]%andb_true_iff];
    apply orb_true_iff in H23 as [H23|[Hbc H23]%andb_true_iff];
    apply orb_true_iff.
  - left. apply Z.ltb_lt. apply Z.ltb_lt in H12, H23. lia.
  - left. apply Z.ltb_lt. apply Z.ltb_lt in H12. apply Z.eqb_eq in Hbc. lia.
  - left. apply Z.ltb_lt. apply Z.ltb_lt in H23. apply Z.eqb_eq in Hab. lia.
  - right. apply andb_true_iff. split.
    + apply Z.eqb_eq. apply Z.eqb_eq in Hab, Hbc. lia.
    + by apply (IH k2).
Qed.

Global Instance row_le_total order : Total (row_le order).
Proof.
  intros x y. unfold row_le.
  destruct (lex_leb_total (order_key order x.2) (order_key order y.2))
    as [H|H]; rewrite H; [by left|by right].
Qed.

Global Instance row_le_trans order : Transitive (row_le order).
Proof.
  intros x y z. unfold row_le. intros H1%Is_true_true H2%Is_true_true.
  apply Is_true_true. by apply (lex_leb_trans _ (order_key order y.2)).
Qed.

(** A search limited to one row: nothing when no rule matches the domain;
    otherwise one matching rule whose key is below the key of every other
    matching rule. *)
Lemma search_limit_1 dom order st :
  match search dom order (Some 1) st with
  | [] => ∀ j r, rules st !! j = Some r → matches dom r = false
  | i :: rest =>
      rest = []
      ∧ ∃ r, rules st !! i = Some r ∧ matches dom r = true
           ∧ ∀ j r', rules st !! j = Some r' → matches dom r' = true →
                lex_leb (order_key order r) (order_key order r') = true
  end.
Proof.
  unfold search.
  set (hits := filter _ (imap pair (rules st))).
  assert (Hhits : ∀ j r, (j, r) ∈ hits ↔
                         rules st !! j = Some r ∧ matches dom r = true).
  { intros j r. unfold hits. rewrite list_elem_of_filter, elem_of_lookup_imap.
    simpl. rewrite Is_true_true. split.
    - intros (Hm & k & y & Heq & Hk). by simplify_eq.
    - intros [Hj Hm]. eauto. }
  pose proof (merge_sort_Permutation (row_le order) hits) as Hperm.
  pose proof (StronglySorted_merge_sort (row_le order) hits) as Hsorted.
  destruct (merge_sort (row_le order) hits) as [|[i r] sorted]; simpl.
  - intros j r Hj. destruct (matches dom r) eqn:Hm; [|done].
    assert ((j, r) ∈ hits) as Hin by by apply Hhits.
    rewrite <-Hperm in Hin. by apply elem_of_nil in Hin.
  - split; [by destruct (sorted.*1)|].
    assert ((i, r) ∈ hits) as Hin by (rewrite <-Hperm; left).
    apply Hhits in Hin as [Hi Hm]. exists r. repeat split; try done.
    intros j r' Hj Hm'.
    assert ((j, r') ∈ (i, r) :: sorted) as Hin
      by (rewrite Hperm; by apply Hhits).
    apply StronglySorted_cons in Hsorted as [Hle _].
    apply elem_of_cons in Hin as [Heq|Hin].
    + simplify_eq. destruct (lex_leb_total (order_key order r)
                                            (order_key order r)); done.
    + rewrite Forall_forall in Hle. apply Is_true_true. apply (Hle _ Hin).
Qed.

Lemma matches_product_domain st l r :
  matches [Leaf "route_id" "in" (DIds (product_routes st l))] r = true
  ↔ product_rule st l r.
Proof.
  unfold matches, product_rule. simpl. unfold eval_leaf. simpl.
  rewrite andb_true_r. destruct (rule_route_id r) as [route|].
  - rewrite bool_decide_eq_true. split; [eauto|].
    by intros (? & [= <-] & ?).
  - split; [done|]. by intros (? & ? & ?).
Qed.

Lemma matches_warehouse_domain st l r :
  matches [Or;
           Leaf "warehouse_id" "=" (from_option DId DFalse (line_warehouse st l));
           Leaf "warehouse_id" "=" DFalse;
           Leaf "route_id" "in" (DIds (warehouse_routes st l))] r = true
  ↔ warehouse_rule st l r.
Proof.
  unfold matches, warehouse_rule. simpl. unfold eval_leaf. simpl.
  rewrite andb_true_r, andb_true_iff, orb_true_iff.
  destruct (line_warehouse st l) as [w|], (rule_route_id r) as [route|];
    simpl; rewrite ?bool_decide_eq_true; naive_solver.
Qed.

Lemma lex_leb_before r r' :
  lex_leb (order_key ["route_sequence"; "sequence"] r)
          (order_key ["route_sequence"; "sequence"] r') = true
  ↔ before r r'.
Proof.
  unfold before. simpl. unfold rule_integer. simpl.
  destruct (Z.ltb_spec (rule_route_sequence r) (rule_route_sequence r')),
           (Z.eqb_spec (rule_route_sequence r) (rule_route_sequence r')),
           (Z.ltb_spec (rule_sequence r) (rule_sequence r')),
           (Z.eqb_spec (rule_sequence r) (rule_sequence r'));
    simpl; split; (done || lia).
Qed.

(** C5.  [_get_line_rule] is a two-tier lookup.  When it returns a rule,
    either that rule is the first, by [route_sequence] then [sequence],
    of the rules on the routes of the product and of its category, or no
    such rule exists and it is the first of the rules of the warehouse of
    the order (or of no warehouse) on the routes of the warehouse.  It
    returns [False] only when both tiers are empty.
    [_get_procure_method] reads the method of the rule returned. *)
Theorem get_line_rule_two_tier st (self : sale_order_line) :
  match SaleOrderLine._get_line_rule st self with
  | Some i =>
      first_rule (product_rule st self) st i
      ∨ (no_rule (product_rule st self) st
         ∧ first_rule (warehouse_rule st self) st i)
  | None =>
      no_rule (product_rule st self) st ∧ no_rule (warehouse_rule st self) st
  end
  ∧ SaleOrderLine._get_procure_method st self
    = SaleOrderLine._get_line_rule st self
        ≫= λ i, rule_procure_method <$> rules st !! i.
Proof.
  split.
  - unfold SaleOrderLine._get_line_rule.
    fold (product_routes st self). fold (line_warehouse st self).
    fold (warehouse_routes st self).
    pose proof (search_limit_1
                  [Leaf "route_id" "in" (DIds (product_routes st self))]
                  ["route_sequence"; "sequence"] st) as H1.
    destruct (search _ _ _ st) as [|i rest].
    + assert (Hnone : no_rule (product_rule st self) st).
      { intros j r Hj Hp. apply matches_product_domain in Hp.
        by rewrite (H1 _ _ Hj) in Hp. }
      rewrite (bool_decide_eq_true_2 (@nil nat = [])) by done.
      pose proof (search_limit_1
                    [Or;
                     Leaf "warehouse_id" "="
                          (from_option DId DFalse (line_warehouse st self));
                     Leaf "warehouse_id" "=" DFalse;
                     Leaf "route_id" "in" (DIds (warehouse_routes st self))]
                    ["route_sequence"; "sequence"] st) as H2.
      destruct (search _ _ _ st) as [|i rest].
      * rewrite (bool_decide_eq_false_2 (@nil nat ≠ []))
          by (by intros H; apply H).
        split; [done|]. intros j r Hj Hp. apply matches_warehouse_domain in Hp.
        by rewrite (H2 _ _ Hj) in Hp.
      * rewrite (bool_decide_eq_true_2 (i :: rest ≠ [])) by done. simpl.
        destruct H2 as (_ & r & Hi & Hm & Hmin). right. split; [done|].
        exists r. split; [done|]. split; [by apply matches_warehouse_domain|].
        intros j r' Hj Hp. apply lex_leb_before, (Hmin j); [done|].
        by apply matches_warehouse_domain.
    + rewrite (bool_decide_eq_false_2 (i :: rest = [])) by done.
      rewrite (bool_decide_eq_true_2 (i :: rest ≠ [])) by done. simpl.
      destruct H1 as (_ & r & Hi & Hm & Hmin). left.
      exists r. split; [done|]. split; [by apply matches_product_domain|].
      intros j r' Hj Hp. apply lex_leb_before, (Hmin j); [done|].
      by apply matches_product_domain.
  - unfold SaleOrderLine._get_procure_method.
    by destruct (SaleOrderLine._get_line_rule st self).
Qed.

(** ** The guards of [write] *)

Lemma test_block_on_reserve_keys (vals : gmap string value) :
  SaleOrderLine._test_block_on_reserve vals ≠ ∅
  ↔ is_Some (vals !! "product_id") ∨ is_Some (vals !! "product_uom_id")
    ∨ is_Some (vals !! "type").
Proof.
  unfold SaleOrderLine._test_block_on_reserve. simpl.
  rewrite <-!elem_of_dom. split.
  - intros [k Hk]%set_choose_L. set_solver.
  - intros Hk Hempty. set_solver.
Qed.

Lemma test_update_on_reserve_keys (vals : gmap string value) :
  SaleOrderLine._test_update_on_reserve vals ≠ ∅
  ↔ is_Some (vals !! "price_unit") ∨ is_Some (vals !! "product_uom_qty").
Proof.
  unfold SaleOrderLine._test_update_on_reserve. simpl.
  rewrite <-!elem_of_dom. split.
  - intros [k Hk]%set_choose_L. set_solver.
  - intros Hk Hempty. set_solver.
Qed.

Lemma mapped_Ok {A} (table : db → list A) field recs st :
  (∀ i, i ∈ recs → is_Some (table st !! i)) →
  mapped table field recs st = Ok (remove_dups (recs ≫= field st)) st.
Proof.
  intros Hex. unfold mapped.
  destruct (forallb _ recs) eqn:Hall; [done|].
  apply not_true_iff_false in Hall. destruct Hall.
  apply forallb_forall. intros i Hi%list_elem_of_In.
  by apply bool_decide_eq_true, Hex.
Qed.

Lemma mapped_final {A} (table : db → list A) field recs st :
  final (mapped table field recs st) = st.
Proof. unfold mapped. by destruct (forallb _ recs). Qed.

Lemma mapped_nonempty (field : record_id → list record_id) recs :
  0 < length (remove_dups (recs ≫= field)) ↔ ∃ i, i ∈ recs ∧ field i ≠ [].
Proof.
  split.
  - intros Hlen. destruct (remove_dups _) as [|r l] eqn:Heq; [simpl in *; lia|].
    assert (r ∈ remove_dups (recs ≫= field)) as Hin by (rewrite Heq; left).
    apply elem_of_remove_dups, list_elem_of_bind in Hin as (i & Hr & Hi).
    exists i. split; [done|]. intros Hnil. rewrite Hnil in Hr.
    by apply elem_of_nil in Hr.
  - intros (i & Hi & Hne). destruct (field i) as [|r l] eqn:Heq; [done|].
    assert (r ∈ remove_dups (recs ≫= field)) as Hin.
    { apply elem_of_remove_dups, list_elem_of_bind. exists i.
      split; [rewrite Heq; left|done]. }
    destruct (remove_dups _); [by apply elem_of_nil in Hin|simpl; lia].
Qed.

(** ** The host's write *)

Lemma foldr_alter_length {A} (f : A → A) (recs : list record_id) (t : list A) :
  length (foldr (alter f) t recs) = length t.
Proof.
  induction recs as [|i recs IH]; simpl; [done|]. by rewrite length_alter.
Qed.

Lemma foldr_alter_lookup {A} (f : A → A) (recs : list record_id)
    (t : list A) i :
  i ∉ recs → foldr (alter f) t recs !! i = t !! i.
Proof.
  induction recs as [|j recs IH]; simpl; [done|].
  intros [Hne Hnin]%not_elem_of_cons.
  rewrite list_lookup_alter_ne by done. by apply IH.
Qed.

Lemma orm_write_final {A} (table : db → list A) set_table write_vals
    recs vals st :
  match orm_write table set_table write_vals recs vals st with
  | Ok res st' =>
      res = true
      ∧ st' = set_table (foldr (alter (λ r, default r (write_vals vals r)))
                               (table st) recs) st
      ∧ ∀ i, i ∈ recs → is_Some (table st !! i)
  | Raise e st' => st' = st ∧ (e = MissingError ∨ e = ValueError)
  end.
Proof.
  unfold orm_write.
  destruct (mapM (λ i, table st !! i) recs) as [rows|] eqn:Hrows; [|auto].
  destruct (mapM (write_vals vals) rows); [|auto].
  repeat split. intros i Hi.
  assert (is_Some (mapM (λ i, table st !! i) recs)) as Hsome by eauto.
  apply mapM_is_Some in Hsome. rewrite Forall_forall in Hsome.
  by apply Hsome.
Qed.

Lemma orm_write_Ok {A} (table : db → list A) set_table write_vals
    recs vals st :
  (∀ i, i ∈ recs → is_Some (table st !! i)) →
  (∀ r, is_Some (write_vals vals r)) →
  orm_write table set_table write_vals recs vals st
  = Ok true (set_table (foldr (alter (λ r, default r (write_vals vals r)))
                              (table st) recs) st).
Proof.
  intros Hex Hconv. unfold orm_write.
  destruct (mapM (λ i, table st !! i) recs) as [rows|] eqn:Hrows.
  - destruct (mapM (write_vals vals) rows) eqn:Hrows'; [done|].
    apply mapM_None in Hrows'. apply Exists_exists in Hrows' as (r & _ & Hr).
    destruct (Hconv r) as [? ?]. congruence.
  - apply mapM_None in Hrows. apply Exists_exists in Hrows as (i & Hi & Hnone).
    destruct (Hex i Hi) as [? ?]. congruence.
Qed.

Lemma ids_where_ext_aux {A B} (p : A → bool) (q : B → bool)
    (h : nat → nat) t t' :
  Forall2 (λ x y, p x = q y) t t' →
  (filter (λ x : nat * A, p x.2) (imap (λ i x, (h i, x)) t)).*1
  = (filter (λ y : nat * B, q y.2) (imap (λ i y, (h i, y)) t')).*1.
Proof.
  intros H. revert h. induction H as [|x y t t' Hxy _ IH]; intros h; [done|].
  simpl. rewrite !filter_cons. simpl. rewrite Hxy.
  specialize (IH (h ∘ S)).
  destruct (q y); simpl; [f_equal|]; exact IH.
Qed.

(** Two tables whose rows agree on [p], row by row, select the same ids. *)
Lemma ids_where_ext {A B} (p : A → bool) (q : B → bool) t t' :
  Forall2 (λ x y, p x = q y) t t' → ids_where p t = ids_where q t'.
Proof. apply (ids_where_ext_aux p q (λ i, i)). Qed.

Lemma reservation_ids_fmap (g : stock_reservation → stock_reservation) st line :
  (∀ x, res_sale_line_id (g x) = res_sale_line_id x) →
  reservation_ids (set_reservations (g <$> reservations st) st) line
  = reservation_ids st line.
Proof.
  intros Hg. unfold reservation_ids. simpl. symmetry. apply ids_where_ext.
  apply Forall2_fmap_r, Forall_Forall2_diag, Forall_forall.
  intros x _. simpl. by rewrite Hg.
Qed.

(** ** The cascade onto the reservations *)


Lemma sync_reservation_sale_line st done x :
  res_sale_line_id (sync_reservation st done x) = res_sale_line_id x.
Proof. unfold sync_reservation. by destruct (_ ≫= _). Qed.

Lemma sync_reservation_nil st x : sync_reservation st [] x = x.
Proof.
  unfold sync_reservation. by destruct (res_sale_line_id x).
Qed.

Lemma synced_nil st : synced st [] = st.
Proof.
  unfold synced.
  rewrite (list_fmap_ext _ id) by (intros; apply sync_reservation_nil).
  by rewrite list_fmap_id, set_reservations_id.
Qed.

Lemma sync_reservation_cons st line done x :
  sync_reservation (synced st [line]) done (sync_reservation st [line] x)
  = sync_reservation st (line :: done) x.
Proof.
  unfold sync_reservation at 1 3.
  rewrite sync_reservation_sale_line.
  unfold sync_reservation.
  destruct (res_sale_line_id x) as [line'|]; simpl; [|done].
  destruct (decide (line' = line)) as [->|Hne].
  - rewrite (bool_decide_eq_true_2 (line ∈ line :: done)) by left.
    rewrite (bool_decide_eq_true_2 (line ∈ [line])) by left.
    destruct (lines st !! line) as [l|]; [|by case_bool_decide].
    by case_bool_decide.
  - rewrite (bool_decide_eq_false_2 (line' ∈ [line]))
      by (by intros ->%list_elem_of_singleton).
    destruct (decide (line' ∈ done)) as [Hin|Hnin].
    + rewrite (bool_decide_eq_true_2 (line' ∈ done)) by done.
      by rewrite (bool_decide_eq_true_2 (line' ∈ line :: done)) by by right.
    + rewrite (bool_decide_eq_false_2 (line' ∈ done)) by done.
      rewrite (bool_decide_eq_false_2 (line' ∈ line :: done)); [done|].
      by intros [?|?]%elem_of_cons.
Qed.

Lemma synced_cons st line done :
  synced (synced st [line]) done = synced st (line :: done).
Proof.
  transitivity
    (set_reservations
       (sync_reservation (synced st [line]) done
          <$> (sync_reservation st [line] <$> reservations st)) st);
    [reflexivity|].
  unfold synced at 2. apply (f_equal (λ t, set_reservations t st)).
  rewrite <-list_fmap_compose. apply list_fmap_ext. intros i x _.
  apply sync_reservation_cons.
Qed.

Lemma reservation_ids_synced st done line :
  reservation_ids (synced st done) line = reservation_ids st line.
Proof.
  unfold synced. apply reservation_ids_fmap.
  apply sync_reservation_sale_line.
Qed.

Lemma reservation_write_vals_price_qty p q r :
  reservation_write_vals
    (<["price_unit" := VFloat p]> (<["product_uom_qty" := VFloat q]> ∅)) r
  = Some (set_res_product_uom_qty q (set_res_price_unit p r)).
Proof.
  unfold reservation_write_vals.
  rewrite lookup_insert_eq. simpl.
  rewrite lookup_insert_ne by done. by rewrite lookup_insert_eq.
Qed.

Lemma update_line_Raise line st l :
  lines st !! line = Some l →
  1 < length (reservation_ids st line) →
  SaleOrderLine.update_line line st
  = Raise (UserError SaleOrderLine.several_reservations_msg) st.
Proof.
  intros Hl Hlen. unfold SaleOrderLine.update_line.
  rewrite (bind_Ok _ _ _ _ _ (read_Some _ _ _ _ Hl)).
  unfold bind at 1. simpl.
  rewrite (bool_decide_eq_true_2 (reservation_ids st line ≠ []))
    by (intros Hnil; rewrite Hnil in Hlen; simpl in Hlen; lia).
  simpl. by rewrite bool_decide_eq_true_2.
Qed.

Lemma update_line_Ok line st l :
  lines st !! line = Some l →
  (length (reservation_ids st line) ≤ 1)%nat →
  SaleOrderLine.update_line line st = Ok tt (synced st [line]).
Proof.
  intros Hl Hlen. unfold SaleOrderLine.update_line.
  rewrite (bind_Ok _ _ _ _ _ (read_Some _ _ _ _ Hl)).
  unfold bind at 1. simpl.
  destruct (reservation_ids st line) as [|r0 [|r1 rs]] eqn:Hrs;
    [| |simpl in Hlen; lia].
  - rewrite (bool_decide_eq_false_2 (@nil nat ≠ [])) by (by intros H).
    simpl. unfold ret. f_equal.
    rewrite <-(set_reservations_id st) at 1. unfold synced.
    apply (f_equal (λ t, set_reservations t st)).
    rewrite <-(list_fmap_id (reservations st)) at 1.
    apply list_fmap_ext. intros r x Hx. unfold sync_reservation. simpl.
    destruct (res_sale_line_id x) as [line'|] eqn:Hline'; simpl; [|done].
    rewrite bool_decide_eq_false_2; [done|].
    intros ->%list_elem_of_singleton.
    assert (r ∈ reservation_ids st line) as Hin
      by (apply elem_of_reservation_ids; eauto).
    rewrite Hrs in Hin. by apply elem_of_nil in Hin.
  - rewrite (bool_decide_eq_true_2 ([r0] ≠ [])) by done. simpl.
    assert (r0 ∈ reservation_ids st line) as Hr0 by (rewrite Hrs; left).
    apply elem_of_reservation_ids in Hr0 as (x0 & Hx0 & Hline0).
    erewrite bind_Ok; cycle 1.
    { apply orm_write_Ok.
      - intros i ->%list_elem_of_singleton. eauto.
      - intros r. rewrite reservation_write_vals_price_qty. eauto. }
    unfold ret. f_equal. unfold synced.
    apply (f_equal (λ t, set_reservations t st)). simpl.
    apply list_eq. intros r. rewrite list_lookup_fmap.
    destruct (decide (r = r0)) as [->|Hne].
    + rewrite list_lookup_alter_eq, Hx0. simpl. f_equal.
      rewrite reservation_write_vals_price_qty. simpl.
      unfold sync_reservation. rewrite Hline0. simpl.
      rewrite bool_decide_eq_true_2 by left. by rewrite Hl.
    + rewrite list_lookup_alter_ne by done.
      destruct (reservations st !! r) as [x|] eqn:Hx; [|done]. simpl. f_equal.
      unfold sync_reservation.
      destruct (res_sale_line_id x) as [line'|] eqn:Hline'; simpl; [|done].
      rewrite bool_decide_eq_false_2; [done|].
      intros ->%list_elem_of_singleton.
      assert (r ∈ reservation_ids st line) as Hin
        by (apply elem_of_reservation_ids; eauto).
      rewrite Hrs in Hin. by apply list_elem_of_singleton in Hin.
Qed.

(** The loop returns when no line has several reservations, and has then
    gone through every line. *)
Lemma update_reservation_price_qty_Ok self st :
  (∀ line, line ∈ self → is_Some (lines st !! line)) →
  Forall (λ line, (length (reservation_ids st line) ≤ 1)%nat) self →
  SaleOrderLine._update_reservation_price_qty self st
  = Ok tt (synced st self).
Proof.
  unfold SaleOrderLine._update_reservation_price_qty.
  revert st. induction self as [|line rest IH]; intros st Hex Hall.
  - by rewrite synced_nil.
  - destruct (Hex line) as [l Hl]; [left|].
    apply Forall_cons in Hall as [Hline Hrest].
    rewrite (for_each_cons _ _ _ _ _ (update_line_Ok _ _ _ Hl Hline)).
    rewrite IH, synced_cons; [done| |].
    + intros i Hi. apply (Hex i). by right.
    + eapply Forall_impl; [exact Hrest|]. intros i Hi. simpl in Hi.
      by rewrite reservation_ids_synced.
Qed.

(** The loop raises at the first line with several reservations, after it
    has gone through the lines [done] that come before it. *)
Lemma update_reservation_price_qty_Raise self st :
  (∀ line, line ∈ self → is_Some (lines st !! line)) →
  Exists (λ line, 1 < length (reservation_ids st line)) self →
  ∃ done,
    done ⊆ self
    ∧ Forall (λ line, (length (reservation_ids st line) ≤ 1)%nat) done
    ∧ SaleOrderLine._update_reservation_price_qty self st
      = Raise (UserError SaleOrderLine.several_reservations_msg)
              (synced st done).
Proof.
  unfold SaleOrderLine._update_reservation_price_qty.
  revert st. induction self as [|line rest IH]; intros st Hex Hsome.
  - by apply Exists_nil in Hsome.
  - destruct (Hex line) as [l Hl]; [left|].
    destruct (decide (1 < length (reservation_ids st line))) as [Hlen|Hlen].
    + exists []. split; [set_solver|]. split; [constructor|].
      rewrite synced_nil. apply for_each_cons_Raise.
      by apply (update_line_Raise _ _ l).
    + assert (length (reservation_ids st line) ≤ 1)%nat as Hline by lia.
      apply Exists_cons in Hsome as [?|Hsome]; [done|].
      destruct (IH (synced st [line])) as (done & Hsub & Hdone & Hrun).
      * intros i Hi. apply (Hex i). by right.
      * eapply Exists_impl; [exact Hsome|]. intros i Hi. simpl in Hi.
        by rewrite reservation_ids_synced.
      * exists (line :: done). split; [set_solver|]. split.
        -- constructor; [done|]. eapply Forall_impl; [exact Hdone|].
           intros i Hi. simpl in Hi. by rewrite reservation_ids_synced in Hi.
        -- rewrite (for_each_cons _ _ _ _ _ (update_line_Ok _ _ _ Hl Hline)).
           by rewrite Hrun, synced_cons.
Qed.

(** Where none of the lines has a reservation the cascade changes
    nothing. *)
Lemma synced_no_reservation st done :
  (∀ line, line ∈ done → reservation_ids st line = []) → synced st done = st.
Proof.
  intros Hnone. unfold synced.
  transitivity (set_reservations (reservations st) st);
    [|apply set_reservations_id].
  apply (f_equal (λ t, set_reservations t st)).
  rewrite <-(list_fmap_id (reservations st)) at 2.
  apply list_fmap_ext. intros r x Hx. unfold sync_reservation. simpl.
  destruct (res_sale_line_id x) as [line|] eqn:Hline; simpl; [|done].
  case_bool_decide as Hin; [|done].
  assert (r ∈ reservation_ids st line) as Hr
    by (apply elem_of_reservation_ids; eauto).
  rewrite (Hnone _ Hin) in Hr. by apply elem_of_nil in Hr.
Qed.

(** ** [write] *)

Lemma mapped_Missing {A} (table : db → list A) field recs st i :
  i ∈ recs → table st !! i = None →
  mapped table field recs st = Raise MissingError st.
Proof.
  intros Hi Hnone. unfold mapped.
  destruct (forallb _ recs) eqn:Hall; [|done].
  rewrite forallb_forall in Hall.
  specialize (Hall i (proj1 (list_elem_of_In _ _) Hi)).
  apply bool_decide_eq_true in Hall as [? ?]. congruence.
Qed.

Lemma orm_write_Missing {A} (table : db → list A) set_table write_vals
    recs vals st i :
  i ∈ recs → table st !! i = None →
  orm_write table set_table write_vals recs vals st = Raise MissingError st.
Proof.
  intros Hi Hnone. unfold orm_write.
  destruct (mapM (λ i, table st !! i) recs) as [rows|] eqn:Hrows; [|done].
  assert (is_Some (mapM (λ i, table st !! i) recs)) as Hsome by eauto.
  apply mapM_is_Some in Hsome. rewrite Forall_forall in Hsome.
  destruct (Hsome i Hi) as [? ?]. simpl in *. congruence.
Qed.

Lemma write_not_blocked self vals st :
  SaleOrderLine._test_block_on_reserve vals = ∅
  ∨ (∀ line, line ∈ self → reservation_ids st line = []) →
  SaleOrderLine.write self vals st = write_through self vals st.
Proof.
  intros Hfree. unfold SaleOrderLine.write, write_through.
  case_bool_decide as Hblock; [|done].
  destruct Hfree as [?|Hnone]; [done|].
  destruct (decide (Forall (λ i, is_Some (lines st !! i)) self))
    as [Hex|Hmiss].
  - rewrite Forall_forall in Hex. unfold bind at 1 2.
    rewrite (mapped_Ok lines reservation_ids _ _ Hex). unfold ret at 1.
    rewrite bool_decide_eq_false_2; [done|].
    rewrite mapped_nonempty. intros (i & Hi & Hne). by destruct Hne; apply Hnone.
  - apply not_Forall_Exists, Exists_exists in Hmiss as (i & Hi & Hnone');
      [|apply _].
    assert (lines st !! i = None) as Hlookup.
    { destruct (lines st !! i) eqn:Heq; [|done]. destruct Hnone'. eauto. }
    unfold bind at 1 2.
    rewrite (mapped_Missing lines reservation_ids _ _ _ Hi Hlookup).
    by rewrite (bind_Raise _ _ _ _ _
                  (orm_write_Missing lines set_lines line_write_vals
                                     _ vals _ _ Hi Hlookup)).
Qed.

Lemma write_blocked self vals st :
  (∀ line, line ∈ self → is_Some (lines st !! line)) →
  SaleOrderLine._test_block_on_reserve vals ≠ ∅ →
  (∃ line, line ∈ self ∧ reservation_ids st line ≠ []) →
  SaleOrderLine.write self vals st
  = Raise (UserError SaleOrderLine.reserved_line_msg) st.
Proof.
  intros Hex Hblock Hsome. unfold SaleOrderLine.write.
  rewrite (bool_decide_eq_true_2 _ Hblock). unfold bind at 1 2.
  rewrite (mapped_Ok lines reservation_ids _ _ Hex). unfold ret at 1.
  by rewrite bool_decide_eq_true_2 by by apply mapped_nonempty.
Qed.

Lemma write_through_no_reservation self vals st :
  (∀ line, line ∈ self → reservation_ids st line = []) →
  write_through self vals st
  = orm_write lines set_lines line_write_vals self vals st.
Proof.
  intros Hnone. unfold write_through.
  pose proof (orm_write_final lines set_lines line_write_vals self vals st)
    as Hhost.
  destruct (orm_write lines _ _ _ _ st) as [res st1|e st1] eqn:Hrun;
    [|by rewrite (bind_Raise _ _ _ _ _ Hrun)].
  rewrite (bind_Ok _ _ _ _ _ Hrun).
  destruct Hhost as (-> & -> & Hex).
  case_bool_decide; [|done].
  erewrite bind_Ok; [done|].
  rewrite update_reservation_price_qty_Ok.
  - by rewrite synced_no_reservation.
  - intros i Hi. simpl. apply lookup_lt_is_Some.
    rewrite foldr_alter_length. by apply lookup_lt_is_Some, Hex.
  - apply Forall_forall. intros i Hi.
    change (length (reservation_ids st i) ≤ 1)%nat.
    rewrite (Hnone i Hi). simpl. lia.
Qed.

(** C1.  A [write] whose [vals] holds one of the keys ['product_id'],
    ['product_uom_id'], ['type']: if a line of the recordset has a linked
    reservation, a [UserError] is raised and the store is the one the call
    started from, so the host's write has not run; if no line has a
    reservation, the call is the host's write. *)
Theorem write_block_on_reserve self vals st :
  (∀ line, line ∈ self → is_Some (lines st !! line)) →
  is_Some (vals !! "product_id") ∨ is_Some (vals !! "product_uom_id")
  ∨ is_Some (vals !! "type") →
  ((∃ line, line ∈ self ∧ reservation_ids st line ≠ []) →
   SaleOrderLine.write self vals st
   = Raise (UserError SaleOrderLine.reserved_line_msg) st)
  ∧ ((∀ line, line ∈ self → reservation_ids st line = []) →
     SaleOrderLine.write self vals st
     = orm_write lines set_lines line_write_vals self vals st).
Proof.
  intros Hex Hkeys%test_block_on_reserve_keys. split.
  - by apply write_blocked.
  - intros Hnone. rewrite write_not_blocked by by right.
    by apply write_through_no_reservation.
Qed.


Lemma write_Ok_through self vals st res st' :
  SaleOrderLine.write self vals st = Ok res st' →
  write_through self vals st = Ok res st'.
Proof.
  unfold SaleOrderLine.write. fold (write_through self vals).
  case_bool_decide as Hblock; [|done].
  unfold bind at 1 2.
  pose proof (mapped_final lines reservation_ids self st) as Hfinal.
  destruct (mapped lines reservation_ids self st) as [rs s|e s]; [|done].
  simpl in Hfinal. subst s. unfold ret at 1.
  by destruct (bool_decide (0 < length rs)).
Qed.

(** A [write] that returns has run the host's write and then, when [vals]
    holds a key of the cascade, the cascade over every line. *)
Lemma write_Ok_synced self vals st res st' :
  SaleOrderLine._test_update_on_reserve vals ≠ ∅ →
  SaleOrderLine.write self vals st = Ok res st' →
  ∃ t, orm_write lines set_lines line_write_vals self vals st
       = Ok true (set_lines t st)
     ∧ length t = length (lines st)
     ∧ (∀ line, line ∈ self → is_Some (lines st !! line))
     ∧ Forall (λ line, (length (reservation_ids st line) ≤ 1)%nat) self
     ∧ st' = synced (set_lines t st) self.
Proof.
  intros Hupdate Hrun%write_Ok_through. unfold write_through in Hrun.
  pose proof (orm_write_final lines set_lines line_write_vals self vals st)
    as Hhost.
  destruct (orm_write lines _ _ _ _ st) as [b st1|e st1] eqn:Hwrite;
    [|by rewrite (bind_Raise _ _ _ _ _ Hwrite) in Hrun].
  rewrite (bind_Ok _ _ _ _ _ Hwrite) in Hrun.
  destruct Hhost as (-> & -> & Hex).
  set (t := foldr _ (lines st) self) in *.
  assert (length t = length (lines st)) as Hlen by apply foldr_alter_length.
  assert (∀ line, line ∈ self → is_Some (lines (set_lines t st) !! line))
    as Hex'.
  { intros i Hi. simpl. apply lookup_lt_is_Some. rewrite Hlen.
    by apply lookup_lt_is_Some, Hex. }
  rewrite (bool_decide_eq_true_2 _ Hupdate) in Hrun.
  exists t. split; [done|]. split; [done|]. split; [done|].
  destruct (decide (Forall (λ line, (length (reservation_ids st line) ≤ 1)%nat)
                           self)) as [Hall|Hsome].
  - split; [done|].
    rewrite (bind_Ok _ _ _ _ _
               (update_reservation_price_qty_Ok self (set_lines t st)
                                                Hex' Hall)) in Hrun.
    by injection Hrun as _ <-.
  - apply not_Forall_Exists in Hsome; [|apply _].
    destruct (update_reservation_price_qty_Raise self (set_lines t st) Hex')
      as (done & _ & _ & Hraise).
    { eapply Exists_impl; [exact Hsome|]. intros i Hi. simpl in *.
      change (reservation_ids (set_lines t st) i) with (reservation_ids st i).
      lia. }
    by rewrite (bind_Raise _ _ _ _ _ Hraise) in Hrun.
Qed.

(** Writing the same [vals] a second time changes nothing more. *)
Lemma line_write_vals_twice vals l l' :
  line_write_vals vals l = Some l' → line_write_vals vals l' = Some l'.
Proof.
  unfold line_write_vals, assign.
  destruct (vals !! "product_id") as [v1|];
    [destruct (to_many2one v1)|]; simpl; try done;
    (destruct (vals !! "product_uom") as [v2|];
       [destruct (to_many2one v2)|]; simpl; try done;
       (destruct (vals !! "product_uom_qty") as [v3|];
          [destruct (to_float v3)|]; simpl; try done;
          (destruct (vals !! "price_unit") as [v4|];
             [destruct (to_float v4)|]; simpl; try done;
             (destruct (vals !! "name") as [v5|];
                [destruct (to_char v5)|]; simpl; try done;
                by intros [= <-])))).
Qed.

Lemma foldr_alter_lookup_twice {A} (f : A → A) (recs : list record_id)
    (t : list A) i :
  (∀ x, f (f x) = f x) → i ∈ recs →
  foldr (alter f) t recs !! i = f <$> t !! i.
Proof.
  intros Hf. induction recs as [|j recs IH]; simpl.
  - by intros ?%elem_of_nil.
  - intros Hin. destruct (decide (j = i)) as [->|Hne].
    + rewrite list_lookup_alter_eq.
      destruct (decide (i ∈ recs)) as [Hin'|Hnin].
      * rewrite (IH Hin'). destruct (t !! i); simpl; [|done]. by rewrite Hf.
      * by rewrite foldr_alter_lookup.
    + rewrite list_lookup_alter_ne by done. apply IH.
      apply elem_of_cons in Hin as [?|?]; [congruence|done].
Qed.

(** The rows of the lines after the host's write of [vals]. *)
Lemma orm_write_lines_lookup self vals st line l0 l :
  line ∈ self → lines st !! line = Some l0 →
  line_write_vals vals l0 = Some l →
  foldr (alter (λ r, default r (line_write_vals vals r))) (lines st) self
    !! line = Some l.
Proof.
  intros Hin Hl0 Hl. rewrite foldr_alter_lookup_twice; [|intros x|done].
  - by rewrite Hl0; simpl; rewrite Hl.
  - destruct (line_write_vals vals x) as [x'|] eqn:Hx; simpl; [|by rewrite Hx].
    by rewrite (line_write_vals_twice _ _ _ Hx).
Qed.

(** C2.  A [write] whose [vals] holds ['price_unit'] or
    ['product_uom_qty'], with values of the types of the fields, on
    existing lines that the guard on reserved lines lets through and none
    of which has several reservations, returns [True].  Afterwards every
    line of the recordset with exactly one linked reservation holds the
    row written by the host, and its reservation is the row it was with
    the [price_unit] and the [product_uom_qty] of that written line: the
    two agree.  The links between lines and reservations are as before
    (lines without reservation are skipped), and a reservation of no line
    of the recordset is as before. *)
Theorem write_update_on_reserve self vals st :
  (∀ line, line ∈ self → is_Some (lines st !! line)) →
  (∀ l, is_Some (line_write_vals vals l)) →
  is_Some (vals !! "price_unit") ∨ is_Some (vals !! "product_uom_qty") →
  ¬ (is_Some (vals !! "product_id") ∨ is_Some (vals !! "product_uom_id")
     ∨ is_Some (vals !! "type"))
  ∨ (∀ line, line ∈ self → reservation_ids st line = []) →
  Forall (λ line, (length (reservation_ids st line) ≤ 1)%nat) self →
  ∃ st',
    SaleOrderLine.write self vals st = Ok true st'
    ∧ (∀ line r, line ∈ self → reservation_ids st line = [r] →
         ∃ (l0 l : sale_order_line) (x x' : stock_reservation),
           lines st !! line = Some l0
           ∧ reservations st !! r = Some x
           ∧ line_write_vals vals l0 = Some l
           ∧ lines st' !! line = Some l
           ∧ reservations st' !! r = Some x'
           ∧ x' = set_res_product_uom_qty (line_product_uom_qty l)
                    (set_res_price_unit (line_price_unit l) x)
           ∧ res_price_unit x' = line_price_unit l
           ∧ res_product_uom_qty x' = line_product_uom_qty l)
    ∧ (∀ line, reservation_ids st' line = reservation_ids st line)
    ∧ (∀ r (x : stock_reservation),
         reservations st !! r = Some x →
         (∀ line, line ∈ self → res_sale_line_id x ≠ Some line) →
         reservations st' !! r = Some x).
Proof.
  intros Hex Hconv Hkeys%test_update_on_reserve_keys Hblock Hall.
  set (t := foldr (alter (λ r, default r (line_write_vals vals r)))
                  (lines st) self).
  assert (∀ line, line ∈ self → is_Some (lines (set_lines t st) !! line))
    as Hex'.
  { intros i Hi. simpl. apply lookup_lt_is_Some. unfold t.
    rewrite foldr_alter_length. by apply lookup_lt_is_Some, Hex. }
  exists (synced (set_lines t st) self). split; [|split; [|split]].
  - rewrite write_not_blocked; cycle 1.
    { destruct Hblock as [Hfree|Hnone]; [left|by right].
      destruct (decide (SaleOrderLine._test_block_on_reserve vals = ∅))
        as [|Hne]; [done|]. by apply test_block_on_reserve_keys in Hne. }
    unfold write_through.
    rewrite (bind_Ok _ _ _ _ _ (orm_write_Ok lines set_lines line_write_vals
                                             self vals st Hex Hconv)).
    fold t. rewrite (bool_decide_eq_true_2 _ Hkeys).
    by rewrite (bind_Ok _ _ _ _ _
                  (update_reservation_price_qty_Ok self (set_lines t st)
                                                   Hex' Hall)).
  - intros line r Hline Hr.
    assert (r ∈ reservation_ids st line) as Hin by (rewrite Hr; left).
    apply elem_of_reservation_ids in Hin as (x & Hx & Hlink).
    destruct (Hex line Hline) as [l0 Hl0].
    destruct (Hconv l0) as [l Hl].
    assert (t !! line = Some l) as Ht
      by by apply (orm_write_lines_lookup self vals st line l0).
    exists l0, l, x, (set_res_product_uom_qty (line_product_uom_qty l)
                        (set_res_price_unit (line_price_unit l) x)).
    split; [done|]. split; [done|]. split; [done|]. split; [done|].
    split; [|done].
    unfold synced. simpl. rewrite list_lookup_fmap, Hx. simpl. f_equal.
    unfold sync_reservation. rewrite Hlink. simpl.
    rewrite bool_decide_eq_true_2 by done. by rewrite Ht.
  - intros line. by rewrite reservation_ids_synced.
  - intros r x Hx Hfree. unfold synced. simpl.
    rewrite list_lookup_fmap, Hx. simpl. f_equal.
    unfold sync_reservation.
    destruct (res_sale_line_id x) as [line|] eqn:Hline; simpl; [|done].
    rewrite bool_decide_eq_false_2; [done|].
    intros Hin. by apply (Hfree line).
Qed.

(** C3, as it is stated, fails on the lines 1 and 2 of [demo_db] with a
    new price and quantity: line 2 has two reservations and a [UserError]
    is raised, but the store it leaves is not the one the call started
    from. *)
Lemma write_several_reservations_counterexample :
  (is_Some (demo_price_vals !! "price_unit")
   ∨ is_Some (demo_price_vals !! "product_uom_qty"))
  ∧ 2 ∈ [1; 2]
  ∧ 1 < length (reservation_ids demo_db 2)
  ∧ ¬ ∃ msg st',
        SaleOrderLine.write [1; 2] demo_price_vals demo_db
        = Raise (UserError msg) st'
        ∧ lines st' = lines demo_db
        ∧ reservations st' = reservations demo_db.
Proof.
  split; [left; vm_compute; eauto|]. split; [by right; left|].
  split; [vm_compute; lia|].
  intros (msg & st' & Hrun & Hlines & _).
  vm_compute in Hrun. injection Hrun as _ <-.
  vm_compute in Hlines. discriminate Hlines.
Qed.

(** C3, amended.  A [write] whose [vals] holds ['price_unit'] or
    ['product_uom_qty'] on a recordset with a line that has several
    reservations raises a [UserError].  When [vals] also holds a key of the
    guard on reserved lines, the store is the one the call started from.
    Otherwise the error is raised after the host's write: the lines carry
    the written values.  In both cases no table but those of lines and
    reservations differs, and no reservation of a line with several
    reservations is modified. *)
Theorem write_several_reservations self vals st :
  (∀ line, line ∈ self → is_Some (lines st !! line)) →
  (∀ l, is_Some (line_write_vals vals l)) →
  is_Some (vals !! "price_unit") ∨ is_Some (vals !! "product_uom_qty") →
  (∃ line, line ∈ self ∧ 1 < length (reservation_ids st line)) →
  ∃ msg st',
    SaleOrderLine.write self vals st = Raise (UserError msg) st'
    ∧ (is_Some (vals !! "product_id") ∨ is_Some (vals !! "product_uom_id")
       ∨ is_Some (vals !! "type") → st' = st)
    ∧ (¬ (is_Some (vals !! "product_id") ∨ is_Some (vals !! "product_uom_id")
          ∨ is_Some (vals !! "type")) →
       orm_write lines set_lines line_write_vals self vals st
       = Ok true (set_lines (lines st') st))
    ∧ st' = set_reservations (reservations st') (set_lines (lines st') st)
    ∧ ∀ r (x : stock_reservation) line,
        reservations st !! r = Some x → res_sale_line_id x = Some line →
        1 < length (reservation_ids st line) →
        reservations st' !! r = Some x.
Proof.
  intros Hex Hconv Hkeys%test_update_on_reserve_keys (bad & Hbad & Hlen).
  destruct (decide (SaleOrderLine._test_block_on_reserve vals = ∅))
    as [Hfree|Hblock].
  - assert (∀ line, line ∈ self →
              is_Some (lines (set_lines
                                (foldr (alter (λ r, default r
                                                 (line_write_vals vals r)))
                                       (lines st) self) st) !! line))
      as Hex'.
    { intros i Hi. simpl. apply lookup_lt_is_Some.
      rewrite foldr_alter_length. by apply lookup_lt_is_Some, Hex. }
    destruct (update_reservation_price_qty_Raise self _ Hex')
      as (done & _ & Hdone & Hraise).
    { apply Exists_exists. exists bad. split; [done|]. exact Hlen. }
    eexists _, _. split; [|split; [|split; [|split]]].
    + rewrite write_not_blocked by by left. unfold write_through.
      rewrite (bind_Ok _ _ _ _ _ (orm_write_Ok lines set_lines line_write_vals
                                               self vals st Hex Hconv)).
      rewrite (bool_decide_eq_true_2 _ Hkeys).
      by rewrite (bind_Raise _ _ _ _ _ Hraise).
    + intros Hblock%test_block_on_reserve_keys. done.
    + intros _. by apply orm_write_Ok.
    + done.
    + intros r x line Hx Hlink Hline. unfold synced. simpl.
      rewrite list_lookup_fmap, Hx. simpl. f_equal.
      unfold sync_reservation. rewrite Hlink. simpl.
      rewrite bool_decide_eq_false_2; [done|].
      intros Hin. rewrite Forall_forall in Hdone.
      specialize (Hdone line Hin). simpl in Hdone.
      change (reservation_ids (set_lines _ st) line)
        with (reservation_ids st line) in Hdone. lia.
  - exists SaleOrderLine.reserved_line_msg, st.
    split; [|split; [|split; [|split]]].
    + apply write_blocked; [done|done|]. exists bad. split; [done|].
      intros Hnil. rewrite Hnil in Hlen. simpl in Hlen. lia.
    + done.
    + intros Hnot. destruct Hnot. by apply test_block_on_reserve_keys.
    + by destruct st.
    + done.
Qed.

(** ** Acquiring reservations *)

Lemma order_le_refl o : order_le o o.
Proof. by left. Qed.

Lemma order_le_Some o o' :
  order_le o o' → is_Some (order_procurement_group_id o) → o' = o.
Proof. intros [?|[Hnone _]] [g Hg]; [done|congruence]. Qed.

Lemma order_le_trans o1 o2 o3 : order_le o1 o2 → order_le o2 o3 → order_le o1 o3.
Proof.
  intros [->|[Hnone [g ->]]] H23; [done|].
  destruct H23 as [->|[Hnone' _]]; [right; eauto|done].
Qed.

Lemma extends_refl st : extends st st.
Proof.
  split; try done.
  - apply Forall_Forall2_diag, Forall_forall. intros o _. apply order_le_refl.
  - intros i o' g Ho' Hg. left. eauto.
Qed.

Lemma extends_trans st1 st2 st3 :
  extends st1 st2 → extends st2 st3 → extends st1 st3.
Proof.
  intros [] []. split; try congruence.
  - by etrans.
  - eapply Forall2_trans; [|done..]. apply order_le_trans.
  - intros i o' g Ho' Hg.
    destruct (ext_created1 i o' g Ho' Hg) as [(o & Ho & Hog)|(grp & Hgrp & Hsale)].
    + destruct (ext_created0 i o g Ho Hog) as [?|(grp & Hgrp & Hsale)]; [by left|].
      right. exists grp. split; [|done].
      by eapply prefix_lookup_Some.
    + right. eauto.
Qed.

Lemma prepare_stock_reservation_spec self date_validity note st l o :
  lines st !! self = Some l →
  orders st !! line_order_id l = Some o →
  ∃ o1 st1,
    SaleOrderLine._prepare_stock_reservation self date_validity note st
    = Ok (reservation_vals_of l o1 self date_validity note) st1
    ∧ extends st st1
    ∧ reservations st1 = reservations st
    ∧ orders st1 !! line_order_id l = Some o1
    ∧ is_Some (order_procurement_group_id o1).
Proof.
  intros Hl Ho. unfold SaleOrderLine._prepare_stock_reservation.
  rewrite (bind_Ok _ _ _ _ _ (read_Some _ _ _ _ Hl)).
  rewrite (bind_Ok _ _ _ _ _ (read_Some _ _ _ _ Ho)).
  destruct (order_procurement_group_id o) as [g|] eqn:Hgroup.
  - exists o, st. simpl.
    rewrite (bind_Ok _ _ _ _ _ (eq_refl : ret tt st = Ok tt st)).
    rewrite (bind_Ok _ _ _ _ _ (read_Some _ _ _ _ Ho)).
    split; [done|]. split; [apply extends_refl|]. split; [done|].
    split; [done|]. rewrite Hgroup. eauto.
  - set (o1 := SaleOrderLine.set_order_procurement_group_id
                 (Some (length (groups st))) o).
    set (grp := {| group_name := order_name o;
                   group_move_type := order_picking_policy o;
                   group_sale_id := line_order_id l;
                   group_partner_id := order_partner_shipping_id o |}).
    set (st1 := set_orders (alter (λ _, o1) (line_order_id l) (orders st))
                           (set_groups (groups st ++ [grp]) st)).
    assert (orders st1 !! line_order_id l = Some o1) as Ho1
      by (simpl; by rewrite list_lookup_alter_eq, Ho).
    exists o1, st1. split; [|split; [|split; [done|split; [done|]]]].
    + simpl. unfold bind at 1. unfold bind at 1. unfold create_group at 1.
      unfold bind at 1. unfold modify at 1.
      replace (set_orders _ _) with st1; cycle 1.
      { unfold st1. simpl. f_equal. apply list_alter_ext; [|done].
        intros x Hx. rewrite Ho in Hx. by injection Hx as <-. }
      by rewrite (read_Some _ _ _ _ Ho1).
    + split; try done.
      * by apply prefix_app_r.
      * simpl. apply Forall2_alter_r.
        -- apply Forall_Forall2_diag, Forall_forall. intros x _.
           apply order_le_refl.
        -- intros x y Hx Hy _. rewrite Ho in Hx. injection Hx as <-.
           right. split; [done|]. by exists (length (groups st)).
      * intros i o' g Ho' Hg. simpl in Ho'.
        destruct (decide (i = line_order_id l)) as [->|Hne].
        -- rewrite list_lookup_alter_eq, Ho in Ho'. injection Ho' as <-.
           injection Hg as <-. right. exists grp. split; [|done].
           simpl. by rewrite lookup_app_r, Nat.sub_diag by lia.
        -- rewrite list_lookup_alter_ne in Ho' by done. left. eauto.
    + simpl. eauto.
Qed.

Lemma remove_dups_NoDup (l : list nat) : NoDup l → remove_dups l = l.
Proof.
  induction 1 as [|x l Hx _ IH]; simpl; [done|].
  destruct (decide_rel elem_of x l); [done|]. by rewrite IH.
Qed.

Lemma extends_set_reservations st st' t :
  extends st st' → extends st (set_reservations t st').
Proof. intros []. by split. Qed.

Lemma reservable_lines_ext st st' self :
  lines st' = lines st → reservable_lines st' self = reservable_lines st self.
Proof. unfold reservable_lines. by intros ->. Qed.

Lemma acquire_line_skip date_validity note acc line st l :
  lines st !! line = Some l → line_is_stock_reservable l = false →
  SaleOrderLine.acquire_line date_validity note acc line st = Ok acc st.
Proof.
  intros Hl Hflag. unfold SaleOrderLine.acquire_line.
  rewrite (bind_Ok _ _ _ _ _ (read_Some _ _ _ _ Hl)). by rewrite Hflag.
Qed.

Lemma acquire_line_create date_validity note b k line st l o :
  b + k = length (reservations st) →
  lines st !! line = Some l → line_is_stock_reservable l = true →
  orders st !! line_order_id l = Some o →
  ∃ o1 st1,
    SaleOrderLine.acquire_line date_validity note (seq b k) line st
    = Ok (seq b (S k))
         (set_reservations
            (reservations st
               ++ [{| res_vals := reservation_vals_of l o1 line
                                                      date_validity note;
                      res_status := Draft |}]) st1)
    ∧ extends st st1
    ∧ orders st1 !! line_order_id l = Some o1
    ∧ is_Some (order_procurement_group_id o1).
Proof.
  intros Hlen Hl Hflag Ho. unfold SaleOrderLine.acquire_line.
  rewrite (bind_Ok _ _ _ _ _ (read_Some _ _ _ _ Hl)). rewrite Hflag. simpl.
  destruct (prepare_stock_reservation_spec line date_validity note st l o
              Hl Ho) as (o1 & st1 & Hrun & Hext & Hres & Ho1 & Hgroup).
  exists o1, st1. split; [|done].
  rewrite (bind_Ok _ _ _ _ _ Hrun). unfold bind, create_reservation, ret.
  rewrite Hres, <-Hlen. f_equal.
  change (b :: seq (S b) k) with (seq b (S k)).
  rewrite remove_dups_NoDup.
  - by rewrite seq_S.
  - rewrite <-seq_S. apply NoDup_seq.
Qed.

Lemma acquire_loop_spec date_validity note self st b k :
  b + k = length (reservations st) →
  (∀ line, line ∈ self →
     ∃ l, lines st !! line = Some l ∧ is_Some (orders st !! line_order_id l)) →
  ∃ st' news,
    SaleOrderLine.acquire_loop date_validity note (seq b k) self st
    = Ok (seq b (k + length news)) st'
    ∧ extends st st'
    ∧ reservations st' = reservations st ++ news
    ∧ Forall2 (λ line (x : stock_reservation),
                 reservation_for st' date_validity note line x
                 ∧ res_status x = Draft)
              (reservable_lines st self) news.
Proof.
  revert st k. induction self as [|line rest IH]; intros st k Hlen Hwf.
  - exists st, []. simpl. rewrite Nat.add_0_r, app_nil_r.
    split; [done|]. split; [apply extends_refl|]. split; [done|]. constructor.
  - destruct (Hwf line) as (l & Hl & [o Ho]); [left|].
    destruct (line_is_stock_reservable l) eqn:Hflag.
    + destruct (acquire_line_create date_validity note b k line st l o
                  Hlen Hl Hflag Ho) as (o1 & st1 & Hstep & Hext1 & Ho1 & Hg1).
      set (row := {| res_vals := reservation_vals_of l o1 line
                                                     date_validity note;
                     res_status := Draft |}) in *.
      set (st2 := set_reservations (reservations st ++ [row]) st1) in *.
      assert (extends st st2) as Hext2 by by apply extends_set_reservations.
      destruct (IH st2 (S k)) as (st' & news & Hrun & Hext & Hres & Hall).
      { simpl. rewrite length_app. simpl. lia. }
      { intros i Hi. destruct (Hwf i) as (li & Hli & [oi Hoi]); [by right|].
        exists li. rewrite (ext_lines _ _ Hext2). split; [done|].
        destruct (Forall2_lookup_l _ _ _ _ _ (ext_orders _ _ Hext2) Hoi)
          as (oi' & Hoi' & _). eauto. }
      exists st', (row :: news). split; [|split; [|split]].
      * simpl. rewrite (bind_Ok _ _ _ _ _ Hstep), Hrun. do 2 f_equal. lia.
      * by eapply extends_trans.
      * rewrite Hres. simpl. by rewrite <-app_assoc.
      * unfold reservable_lines. rewrite filter_cons_True
          by (by rewrite Hl).
        constructor.
        -- split; [|done]. exists l.
           destruct (Forall2_lookup_l _ _ _ _ _ (ext_orders _ _ Hext) Ho1)
             as (o' & Ho' & Hle).
           apply order_le_Some in Hle as ->; [|done].
           exists o1. rewrite (ext_lines _ _ Hext), (ext_lines _ _ Hext2).
           done.
        -- rewrite (reservable_lines_ext st st2 rest
                      (ext_lines _ _ Hext2)) in Hall.
           exact Hall.
    + destruct (IH st k Hlen) as (st' & news & Hrun & Hext & Hres & Hall).
      { intros i Hi. apply Hwf. by right. }
      exists st', news. split; [|split; [done|split; [done|]]].
      * simpl. by rewrite (bind_Ok _ _ _ _ _
                             (acquire_line_skip _ _ _ _ _ _ Hl Hflag)).
      * unfold reservable_lines. rewrite filter_cons_False; [done|].
        rewrite Hl. simpl. by rewrite Hflag.
Qed.

Lemma foldr_alter_lookup_in {A} (f : A → A) (recs : list record_id)
    (t : list A) i :
  NoDup recs → i ∈ recs → foldr (alter f) t recs !! i = f <$> t !! i.
Proof.
  induction 1 as [|j recs Hj _ IH]; simpl; [by intros ?%elem_of_nil|].
  intros [->|Hin]%elem_of_cons.
  - by rewrite list_lookup_alter_eq, foldr_alter_lookup.
  - rewrite list_lookup_alter_ne by (by intros ->). by apply IH.
Qed.

Lemma foldr_alter_seq {A} (f : A → A) (t news : list A) :
  foldr (alter f) (t ++ news) (seq (length t) (length news))
  = t ++ (f <$> news).
Proof.
  apply list_eq. intros i.
  destruct (decide (i ∈ seq (length t) (length news))) as [Hin|Hnin].
  - rewrite foldr_alter_lookup_in by (done || apply NoDup_seq).
    apply elem_of_seq in Hin.
    rewrite !lookup_app_r by lia. by rewrite list_lookup_fmap.
  - rewrite foldr_alter_lookup by done. rewrite elem_of_seq in Hnin.
    destruct (decide (i < length t)).
    + by rewrite !lookup_app_l by lia.
    + rewrite !lookup_ge_None_2; [done| |];
        rewrite length_app, ?length_fmap; lia.
Qed.

Lemma ids_where_shift_aux {A} (p : A → bool) (h : nat → nat) n (u : list A) :
  (λ i, n + i)
    <$> (filter (λ x : nat * A, p x.2) (imap (λ i x, (h i, x)) u)).*1
  = (filter (λ x : nat * A, p x.2) (imap (λ i x, (n + h i, x)) u)).*1.
Proof.
  revert h. induction u as [|x u IH]; intros h; [done|].
  simpl. rewrite !filter_cons. simpl.
  specialize (IH (h ∘ S)).
  destruct (p x); simpl; [f_equal|]; exact IH.
Qed.

Lemma ids_where_app {A} (p : A → bool) (t u : list A) :
  ids_where p (t ++ u)
  = ids_where p t ++ ((λ i, length t + i) <$> ids_where p u).
Proof.
  unfold ids_where. rewrite imap_app, filter_app, fmap_app. f_equal.
  symmetry. apply (ids_where_shift_aux p (λ i, i)).
Qed.

Lemma acquire_stock_reservation_spec self date_validity note st :
  lines_with_order st self →
  ∃ st1 news,
    extends st st1
    ∧ SaleOrderLine.acquire_stock_reservation self date_validity note st
      = Ok true
           (set_reservations
              (reservations st ++ (set_res_status Reserved <$> news))
              (emit (CallReserve (seq (length (reservations st))
                                      (length news))) st1))
    ∧ Forall2 (λ line (x : stock_reservation),
                 reservation_for st1 date_validity note line x
                 ∧ res_status x = Draft)
              (reservable_lines st self) news.
Proof.
  intros Hwf.
  destruct (acquire_loop_spec date_validity note self st
              (length (reservations st)) 0)
    as (st' & news & Hrun & Hext & Hres & Hall); [lia|done|].
  exists st', news. split; [done|]. split; [|done].
  unfold SaleOrderLine.acquire_stock_reservation.
  change (@nil nat) with (seq (length (reservations st)) 0).
  rewrite (bind_Ok _ _ _ _ _ Hrun). simpl.
  unfold reserve, bind, modify, ret. simpl. f_equal.
  unfold set_reservations. simpl. f_equal.
  rewrite Hres. apply foldr_alter_seq.
Qed.

(** [release_stock_reservation] on existing lines: the call to [release]
    is recorded with the reservations linked to the lines, and these are
    the rows that are released. *)
Lemma release_stock_reservation_spec self st :
  (∀ line, line ∈ self → is_Some (lines st !! line)) →
  ∃ t, SaleOrderLine.release_stock_reservation self st
       = Ok true (set_reservations t
                    (emit (CallRelease (linked_reservations st self)) st))
     ∧ ∀ r, t !! r
            = (if bool_decide (r ∈ linked_reservations st self)
               then released else λ x, x) <$> reservations st !! r.
Proof.
  intros Hex. eexists. split.
  - unfold SaleOrderLine.release_stock_reservation.
    rewrite (bind_Ok _ _ _ _ _ (mapped_Ok lines reservation_ids _ _ Hex)).
    unfold release, bind, modify, ret. simpl. reflexivity.
  - intros r. fold (linked_reservations st self). fold released.
    case_bool_decide as Hin.
    + apply foldr_alter_lookup_in; [apply NoDup_remove_dups|done].
    + rewrite foldr_alter_lookup by done. by destruct (reservations st !! r).
Qed.

Lemma elem_of_linked_reservations st self r :
  r ∈ linked_reservations st self
  ↔ ∃ line, line ∈ self ∧ r ∈ reservation_ids st line.
Proof.
  unfold linked_reservations.
  rewrite elem_of_remove_dups, list_elem_of_bind. naive_solver.
Qed.

Lemma reservation_for_sale_line st date_validity note line
    (x : stock_reservation) :
  reservation_for st date_validity note line x →
  res_sale_line_id x = Some line.
Proof. intros (l & o & _ & _ & _ & ->). done. Qed.

(** C6.  On distinct lines that have a row, and whose orders have one,
    [acquire_stock_reservation] returns [True]; it appends to the table of
    reservations one reservation for each line flagged reservable, in the
    order of the recordset, and none for the other lines; each holds the
    product, the unit of measure, the quantity and the price of its line
    and the procurement group of its order; an order is changed only by
    receiving a procurement group where it had none, and that group is a
    row of the table of groups made for this order; [reserve] is called
    once, on the reservations created.
    [release_stock_reservation] returns [True] and calls [release] once, on
    the reservations linked to the lines. *)
Theorem acquire_release_stock_reservation self date_validity note st :
  NoDup self → lines_with_order st self →
  (∃ st' news,
     SaleOrderLine.acquire_stock_reservation self date_validity note st
     = Ok true st'
     ∧ reservations st' = reservations st ++ news
     ∧ Forall2 (λ line (x : stock_reservation),
                  reservation_for st' date_validity note line x
                  ∧ res_status x = Reserved)
               (reservable_lines st self) news
     ∧ (∀ k k' (x x' : stock_reservation),
          news !! k = Some x → news !! k' = Some x' →
          res_sale_line_id x = res_sale_line_id x' → k = k')
     ∧ trace st'
       = trace st ++ [CallReserve (seq (length (reservations st))
                                       (length news))]
     ∧ lines st' = lines st
     ∧ Forall2 order_le (orders st) (orders st')
     ∧ (∀ i o' g,
          orders st' !! i = Some o' →
          order_procurement_group_id o' = Some g →
          (∃ o, orders st !! i = Some o
                ∧ order_procurement_group_id o = Some g)
          ∨ (∃ grp, groups st' !! g = Some grp ∧ group_sale_id grp = i)))
  ∧ (∃ st',
       SaleOrderLine.release_stock_reservation self st = Ok true st'
       ∧ trace st' = trace st ++ [CallRelease (linked_reservations st self)]
       ∧ ∀ r, r ∈ linked_reservations st self
              ↔ ∃ line, line ∈ self ∧ r ∈ reservation_ids st line).
Proof.
  intros Hdistinct Hwf. split.
  - destruct (acquire_stock_reservation_spec self date_validity note st Hwf)
      as (st1 & news & Hext & Hrun & Hall).
    eexists _, (set_res_status Reserved <$> news).
    split; [exact Hrun|].
    assert (Forall2 (λ line (x : stock_reservation),
                       reservation_for st1 date_validity note line x
                       ∧ res_status x = Reserved)
                    (reservable_lines st self)
                    (set_res_status Reserved <$> news)) as Hall'.
    { apply Forall2_fmap_r. eapply Forall2_impl; [exact Hall|].
      intros line x [Hfor _]. split; [|done].
      destruct Hfor as (l & o & Hl & Ho & Hg & Hvals).
      exists l, o. by rewrite <-Hvals. }
    split; [done|]. split; [exact Hall'|].
    split; [|split; [|split; [|split]]].
    + intros k k' x x' Hk Hk' Hsame.
      destruct (Forall2_lookup_r _ _ _ _ _ Hall' Hk) as (line & Hline & Hx & _).
      destruct (Forall2_lookup_r _ _ _ _ _ Hall' Hk')
        as (line' & Hline' & Hx' & _).
      apply reservation_for_sale_line in Hx, Hx'.
      assert (line = line') as <- by congruence.
      eapply NoDup_lookup; [|exact Hline|exact Hline'].
      by apply NoDup_filter.
    + simpl. by rewrite (ext_trace _ _ Hext), length_fmap.
    + simpl. apply (ext_lines _ _ Hext).
    + simpl. apply (ext_orders _ _ Hext).
    + simpl. apply (ext_created _ _ Hext).
  - destruct (release_stock_reservation_spec self st) as (t & Hrun & _).
    { intros line Hline. destruct (Hwf line Hline) as (l & Hl & _). eauto. }
    eexists. split; [exact Hrun|]. split; [done|].
    apply elem_of_linked_reservations.
Qed.

(** ** Confirmation and cancellation *)

Lemma elem_of_order_reservations st self r :
  r ∈ order_reservations st self
  ↔ ∃ sale line, sale ∈ self ∧ line ∈ order_line st sale
                 ∧ r ∈ reservation_ids st line.
Proof.
  unfold order_reservations. rewrite elem_of_linked_reservations.
  split.
  - intros (line & Hline & Hr).
    apply elem_of_remove_dups, list_elem_of_bind in Hline
      as (sale & Hline & Hsale). eauto.
  - intros (sale & line & Hsale & Hline & Hr). exists line. split; [|done].
    apply elem_of_remove_dups, list_elem_of_bind. eauto.
Qed.

Lemma release_all_stock_reservation_spec self st :
  (∀ sale, sale ∈ self → is_Some (orders st !! sale)) →
  ∃ t, SaleOrder.release_all_stock_reservation self st
       = Ok true (set_reservations t
                    (emit (CallRelease (order_reservations st self)) st))
     ∧ ∀ r, t !! r
            = (if bool_decide (r ∈ order_reservations st self)
               then released else λ x, x) <$> reservations st !! r.
Proof.
  intros Hex.
  destruct (release_stock_reservation_spec
              (remove_dups (self ≫= order_line st)) st) as (t & Hrun & Ht).
  { intros line Hline.
    apply elem_of_remove_dups, list_elem_of_bind in Hline
      as (sale & Hline & _).
    apply elem_of_order_line in Hline as (l & Hl & _). eauto. }
  exists t. split; [|done].
  unfold SaleOrder.release_all_stock_reservation.
  rewrite (bind_Ok _ _ _ _ _ (mapped_Ok orders order_line _ _ Hex)).
  by rewrite (bind_Ok _ _ _ _ _ Hrun).
Qed.

Lemma release_all_released self st t tr :
  (∀ r, t !! r
        = (if bool_decide (r ∈ order_reservations st self)
           then released else λ x, x) <$> reservations st !! r) →
  lines tr = lines st → reservations tr = t →
  reservations_released self st tr.
Proof.
  intros Ht Hlines Hres. split.
  - intros sale line r Hsale Hline Hr.
    assert (r ∈ order_reservations st self) as Hin
      by (apply elem_of_order_reservations; eauto).
    split; [done|].
    apply elem_of_reservation_ids in Hr as (x & Hx & _).
    exists (released x). split; [|done].
    by rewrite Hres, Ht, Hx, bool_decide_eq_true_2.
  - intros sale line r x Hsale Hline Hr Hx.
    apply elem_of_reservation_ids in Hr as (x' & Hx' & Hlink).
    assert (x' = x) as -> by congruence.
    rewrite Hres, Ht in Hx.
    destruct (reservations st !! r) as [x0|] eqn:Hx0; [|done].
    case_bool_decide as Hin; simpl in Hx; injection Hx as <-; [done|].
    destruct Hin. apply elem_of_order_reservations. exists sale, line.
    split; [done|]. split.
    + apply elem_of_order_line in Hline as (l & Hl & Ho).
      apply elem_of_order_line. exists l. by rewrite <-Hlines.
    + apply elem_of_reservation_ids. eauto.
Qed.

(** C7.  On existing orders, [_action_confirm] and [action_cancel] return
    after two calls, in this order: [release] on the reservations linked
    to the lines of the orders, then the confirmation or the cancellation
    of the host.  Afterwards every reservation that was linked to a line
    of the orders is released, and no reservation that is not released is
    linked to one of these lines. *)
Theorem action_confirm_cancel_release self st :
  (∀ sale, sale ∈ self → is_Some (orders st !! sale)) →
  (∃ st', SaleOrder._action_confirm self st = Ok true st'
     ∧ trace st'
       = trace st ++ [CallRelease (order_reservations st self);
                      CallSuperActionConfirm self]
     ∧ reservations_released self st st')
  ∧ (∃ st', SaleOrder.action_cancel self st = Ok true st'
       ∧ trace st'
         = trace st ++ [CallRelease (order_reservations st self);
                        CallSuperActionCancel self]
       ∧ reservations_released self st st').
Proof.
  intros Hex.
  destruct (release_all_stock_reservation_spec self st Hex)
    as (t & Hrun & Ht).
  split.
  - eexists. split; [|split].
    + unfold SaleOrder._action_confirm.
      rewrite (bind_Ok _ _ _ _ _ Hrun). reflexivity.
    + simpl. by rewrite <-app_assoc.
    + by apply (release_all_released self st t).
  - eexists. split; [|split].
    + unfold SaleOrder.action_cancel.
      rewrite (bind_Ok _ _ _ _ _ Hrun). reflexivity.
    + simpl. by rewrite <-app_assoc.
    + by apply (release_all_released self st t).
Qed.

(** ** Acquiring twice *)

Lemma reservable_condition_reserved st line l :
  reservation_ids st line ≠ [] →
  SaleOrderLine.reservable_condition st line l = false.
Proof.
  intros Hres. unfold SaleOrderLine.reservable_condition.
  rewrite (bool_decide_eq_true_2 _ Hres). simpl. apply andb_false_r.
Qed.

(** C9.  On lines that have a row, and whose orders have one,
    [acquire_stock_reservation], then the compute of the lines, then
    [acquire_stock_reservation] again all return.  A line that was flagged
    reservable has a reservation created by the first call, and for a line
    that has a reservation after the first call the second call creates
    none: its reservations are the same after both calls. *)
Theorem acquire_stock_reservation_twice self date_validity note
    date_validity' note' st :
  lines_with_order st self →
  ∃ st1 st2 st3,
    SaleOrderLine.acquire_stock_reservation self date_validity note st
    = Ok true st1
    ∧ SaleOrderLine._compute_is_stock_reservation self st1 = Ok tt st2
    ∧ SaleOrderLine.acquire_stock_reservation self date_validity' note' st2
      = Ok true st3
    ∧ (∀ line, line ∈ reservable_lines st self →
         ∃ r, r ∈ reservation_ids st1 line
              ∧ (length (reservations st) ≤ r)%nat)
    ∧ (∀ line, line ∈ self → reservation_ids st1 line ≠ [] →
         reservation_ids st3 line = reservation_ids st1 line).
Proof.
  intros Hwf.
  destruct (acquire_stock_reservation_spec self date_validity note st Hwf)
    as (sa & news1 & Hext1 & Hrun1 & Hall1).
  set (st1 := set_reservations _ (emit _ sa)) in Hrun1.
  assert (lines st1 = lines st) as Hlines1 by apply (ext_lines _ _ Hext1).
  destruct (compute_is_stock_reservation_spec self st1) as (t2 & Hrun2 & Ht2).
  { intros i Hi. destruct (Hwf i Hi) as (l & Hl & _).
    rewrite Hlines1. eauto. }
  set (st2 := set_lines t2 st1) in Hrun2.
  assert (lines_with_order st2 self) as Hwf2.
  { intros i Hi. destruct (Hwf i Hi) as (l & Hl & [o Ho]).
    rewrite <-Hlines1 in Hl. eexists. split.
    - simpl. rewrite (Ht2 _ _ Hl), bool_decide_eq_true_2 by done. done.
    - simpl.
      destruct (Forall2_lookup_l _ _ _ _ _ (ext_orders _ _ Hext1) Ho)
        as (o' & Ho' & _). eauto. }
  destruct (acquire_stock_reservation_spec self date_validity' note' st2 Hwf2)
    as (sb & news2 & Hext2 & Hrun3 & Hall2).
  eexists st1, st2, _. split; [done|]. split; [done|]. split; [exact Hrun3|].
  split.
  - intros line Hline. apply list_elem_of_lookup in Hline as [k Hk].
    destruct (Forall2_lookup_l _ _ _ _ _ Hall1 Hk) as (x & Hx & Hfor & _).
    apply reservation_for_sale_line in Hfor.
    exists (length (reservations st) + k). split; [|lia].
    apply elem_of_reservation_ids. exists (set_res_status Reserved x).
    split; [|done]. simpl.
    rewrite lookup_app_r by lia.
    replace (length (reservations st) + k - length (reservations st)) with k
      by lia.
    by rewrite list_lookup_fmap, Hx.
  - intros line Hline Hreserved.
    unfold reservation_ids at 1. simpl reservations.
    rewrite ids_where_app. fold (reservation_ids st1 line).
    rewrite (proj2 (ids_where_nil_iff _ (set_res_status Reserved <$> news2)));
      [simpl; by rewrite app_nil_r|].
    intros k x Hx. apply bool_decide_eq_false. intros Hlink.
    apply list_lookup_fmap_Some in Hx as (x0 & -> & Hx0).
    destruct (Forall2_lookup_r _ _ _ _ _ Hall2 Hx0)
      as (line' & Hline' & Hfor & _).
    apply reservation_for_sale_line in Hfor. simpl in Hlink.
    assert (line' = line) as -> by congruence.
    apply list_elem_of_lookup_2, list_elem_of_filter in Hline'
      as [Hflag _].
    destruct (Hwf line Hline) as (l & Hl & _). rewrite <-Hlines1 in Hl.
    simpl in Hflag.
    rewrite (Ht2 _ _ Hl), bool_decide_eq_true_2 in Hflag by done.
    simpl in Hflag.
    by rewrite reservable_condition_reserved in Hflag.
Qed.

(** [write] returns when the guard lets it through, the values convert
    and no line has several reservations. *)
Lemma write_returns self vals st :
  (∀ line, line ∈ self → is_Some (lines st !! line)) →
  (∀ l, is_Some (line_write_vals vals l)) →
  SaleOrderLine._test_block_on_reserve vals = ∅
  ∨ (∀ line, line ∈ self → reservation_ids st line = []) →
  Forall (λ line, (length (reservation_ids st line) ≤ 1)%nat) self →
  ∃ st', SaleOrderLine.write self vals st = Ok true st'.
Proof.
  intros Hex Hconv Hfree Hall. rewrite write_not_blocked by done.
  unfold write_through.
  rewrite (bind_Ok _ _ _ _ _ (orm_write_Ok lines set_lines line_write_vals
                                           self vals st Hex Hconv)).
  case_bool_decide; [|by eexists].
  erewrite bind_Ok; [by eexists|].
  apply update_reservation_price_qty_Ok; [|done].
  intros i Hi. simpl. apply lookup_lt_is_Some.
  rewrite foldr_alter_length. by apply lookup_lt_is_Some, Hex.
Qed.

(** * The methods at work on [demo_db] *)

(** The chair is on routes 1 and 3: rule 2 comes first, and it is
    make-to-stock. *)
Example demo_get_line_rule :
  SaleOrderLine._get_line_rule demo_db
    (demo_line 0 "chair" "draft" (Some 0) 3 10 true) = Some 2
  ∧ SaleOrderLine._get_procure_method demo_db
      (demo_line 0 "chair" "draft" (Some 0) 3 10 true)
    = Some "make_to_stock".
Proof. by vm_compute. Qed.

(** A line without product falls back on the rules of the warehouse. *)
Example demo_get_line_rule_fallback :
  SaleOrderLine._get_line_rule demo_db
    (demo_line 0 "note" "draft" None 0 0 false) = Some 0.
Proof. by vm_compute. Qed.

(** Only the chair can be reserved: the table and the lamp are reserved
    already, the delivery is a service on a confirmed order. *)
Example demo_compute_is_stock_reservation :
  (λ l, line_is_stock_reservable l)
    <$> lines (final (SaleOrderLine._compute_is_stock_reservation
                        [0; 1; 2; 3] demo_db))
  = [true; false; false; false].
Proof. by vm_compute. Qed.

Example demo_compute_stock_reservation :
  (λ o, (order_has_stock_reservation o, order_is_stock_reservable o))
    <$> orders (final (SaleOrder._compute_stock_reservation [0; 1] demo_db))
  = [(true, true); (false, false)].
Proof. by vm_compute. Qed.

(** The write of a price on the table and the lamp fails on the lamp,
    which has two reservations; by then both lines and the reservation of
    the table hold the new price. *)
Example demo_write_price :
  ∃ st', SaleOrderLine.write [1; 2] demo_price_vals demo_db
         = Raise (UserError SaleOrderLine.several_reservations_msg) st'
    ∧ line_price_unit <$> lines st' = [10; 95; 95; 15]%Z
    ∧ (λ x : stock_reservation, res_price_unit x) <$> reservations st'
      = [95; 20; 20]%Z.
Proof. eexists. by vm_compute. Qed.

(** Acquiring on the three lines of the first order reserves the chair. *)
Example demo_acquire :
  ∃ st', SaleOrderLine.acquire_stock_reservation [0; 1; 2] None None demo_db
         = Ok true st'
    ∧ reservation_ids st' 0 = [3]
    ∧ trace st' = [CallReserve [3]]
    ∧ length (groups st') = 1.
Proof. eexists. by vm_compute. Qed.

Example demo_action_confirm :
  trace (final (SaleOrder._action_confirm [0] demo_db))
  = [CallRelease [0; 1; 2]; CallSuperActionConfirm [0]].
Proof. by vm_compute. Qed.

(** * The theorems at work on [demo_db] *)

Lemma compute_is_stock_reservation_invariant_witness :
  ∃ st', SaleOrderLine._compute_is_stock_reservation [0; 1; 3] demo_db
         = Ok tt st'
    ∧ ∀ line l, line ∈ [0; 1; 3] → lines st' !! line = Some l →
        line_is_stock_reservable l = true →
        reservation_ids st' line = []
        ∧ line_state l = "draft"
        ∧ is_Some (line_product_id l)
        ∧ product_type <$> browse (products st') (line_product_id l)
          ≠ Some "service"
        ∧ SaleOrderLine._get_procure_method st' l ≠ Some "make_to_order".
Proof.
  apply (compute_is_stock_reservation_invariant [0; 1; 3] demo_db).
  intros line Hin. members Hin; vm_compute; eauto.
Defined.

Lemma compute_stock_reservation_flags_witness :
  ∃ st', SaleOrder._compute_stock_reservation [0; 1] demo_db = Ok tt st'
    ∧ ∀ sale, sale ∈ [0; 1] →
        ∃ o, orders st' !! sale = Some o
          ∧ (order_has_stock_reservation o = true ↔
             ∃ line, line ∈ order_line st' sale
                     ∧ reservation_ids st' line ≠ [])
          ∧ (order_is_stock_reservable o = true ↔
             (∃ line l, line ∈ order_line st' sale
                        ∧ lines st' !! line = Some l
                        ∧ line_is_stock_reservable l = true)
             ∧ (order_state o = "draft" ∨ order_state o = "sent")).
Proof.
  apply (compute_stock_reservation_flags [0; 1] demo_db).
  intros sale Hin. members Hin; vm_compute; eauto.
Defined.

Lemma write_block_on_reserve_witness :
  SaleOrderLine.write [0; 1] demo_product_vals demo_db
  = Raise (UserError SaleOrderLine.reserved_line_msg) demo_db
  ∧ SaleOrderLine.write [0] demo_product_vals demo_db
    = orm_write lines set_lines line_write_vals [0] demo_product_vals demo_db.
Proof.
  split.
  - refine (proj1 (write_block_on_reserve [0; 1] demo_product_vals demo_db
                     _ _) _).
    + intros line Hin. members Hin; vm_compute; eauto.
    + left. vm_compute. eauto.
    + exists 1. split; [by right; left|by vm_compute].
  - refine (proj2 (write_block_on_reserve [0] demo_product_vals demo_db
                     _ _) _).
    + intros line Hin. members Hin; vm_compute; eauto.
    + left. vm_compute. eauto.
    + intros line Hin. members Hin. by vm_compute.
Defined.

Lemma write_update_on_reserve_witness :
  ∃ st',
    SaleOrderLine.write [0; 1] demo_price_vals demo_db = Ok true st'
    ∧ lines st' !! 1 = Some (demo_line 0 "table" "draft" (Some 0) 2 95 false)
    ∧ reservations st' !! 0 = Some (demo_reservation 1 2 95)
    ∧ lines demo_db !! 1
      = Some (demo_line 0 "table" "draft" (Some 0) 1 80 false)
    ∧ reservations demo_db !! 0 = Some (demo_reservation 1 1 80).
Proof.
  destruct (write_update_on_reserve [0; 1] demo_price_vals demo_db)
    as (st' & Hrun & Hsync & _).
  - intros line Hin. members Hin; vm_compute; eauto.
  - intros l. vm_compute. eauto.
  - left. vm_compute. eauto.
  - left. intros Hkey. vm_compute in Hkey.
    by destruct Hkey as [[? ?]|[[? ?]|[? ?]]].
  - by apply (bool_decide_unpack _).
  - exists st'. split; [exact Hrun|].
    destruct (Hsync 1 0) as (l0 & l & x & x' & Hl0 & Hx & Hl & Hl' & Hx' & -> & _).
    + by right; left.
    + by vm_compute.
    + vm_compute in Hl0. injection Hl0 as <-.
      vm_compute in Hx. injection Hx as <-.
      vm_compute in Hl. injection Hl as <-.
      rewrite Hl', Hx'. by vm_compute.
Defined.

Lemma write_several_reservations_witness :
  ∃ msg st',
    SaleOrderLine.write [1; 2] demo_price_vals demo_db
    = Raise (UserError msg) st'
    ∧ (is_Some (demo_price_vals !! "product_id")
       ∨ is_Some (demo_price_vals !! "product_uom_id")
       ∨ is_Some (demo_price_vals !! "type") → st' = demo_db)
    ∧ (¬ (is_Some (demo_price_vals !! "product_id")
          ∨ is_Some (demo_price_vals !! "product_uom_id")
          ∨ is_Some (demo_price_vals !! "type")) →
       orm_write lines set_lines line_write_vals [1; 2] demo_price_vals
                 demo_db
       = Ok true (set_lines (lines st') demo_db))
    ∧ st' = set_reservations (reservations st')
                             (set_lines (lines st') demo_db)
    ∧ ∀ r (x : stock_reservation) line,
        reservations demo_db !! r = Some x → res_sale_line_id x = Some line →
        1 < length (reservation_ids demo_db line) →
        reservations st' !! r = Some x.
Proof.
  apply (write_several_reservations [1; 2] demo_price_vals demo_db).
  - intros line Hin. members Hin; vm_compute; eauto.
  - intros l. vm_compute. eauto.
  - left. vm_compute. eauto.
  - exists 2. split; [by right; left|vm_compute; lia].
Defined.


Lemma demo_lines_with_order : lines_with_order demo_db [0; 1; 2].
Proof.
  intros line Hin. members Hin; eexists; (split; [reflexivity|]);
    vm_compute; eauto.
Defined.

Lemma acquire_release_stock_reservation_witness :
  (∃ st' news,
     SaleOrderLine.acquire_stock_reservation [0; 1; 2] None None demo_db
     = Ok true st'
     ∧ reservations st' = reservations demo_db ++ news
     ∧ Forall2 (λ line (x : stock_reservation),
                  reservation_for st' None None line x
                  ∧ res_status x = Reserved)
               (reservable_lines demo_db [0; 1; 2]) news
     ∧ (∀ k k' (x x' : stock_reservation),
          news !! k = Some x → news !! k' = Some x' →
          res_sale_line_id x = res_sale_line_id x' → k = k')
     ∧ trace st'
       = trace demo_db ++ [CallReserve (seq (length (reservations demo_db))
                                            (length news))]
     ∧ lines st' = lines demo_db
     ∧ Forall2 order_le (orders demo_db) (orders st')
     ∧ (∀ i o' g,
          orders st' !! i = Some o' →
          order_procurement_group_id o' = Some g →
          (∃ o, orders demo_db !! i = Some o
                ∧ order_procurement_group_id o = Some g)
          ∨ (∃ grp, groups st' !! g = Some grp ∧ group_sale_id grp = i)))
  ∧ (∃ st',
       SaleOrderLine.release_stock_reservation [0; 1; 2] demo_db = Ok true st'
       ∧ trace st'
         = trace demo_db ++ [CallRelease (linked_reservations demo_db
                                                              [0; 1; 2])]
       ∧ ∀ r, r ∈ linked_reservations demo_db [0; 1; 2]
              ↔ ∃ line, line ∈ [0; 1; 2] ∧ r ∈ reservation_ids demo_db line).
Proof.
  apply (acquire_release_stock_reservation [0; 1; 2] None None demo_db).
  - by apply (bool_decide_unpack _).
  - exact demo_lines_with_order.
Defined.

Lemma action_confirm_cancel_release_witness :
  (∃ st', SaleOrder._action_confirm [0] demo_db = Ok true st'
     ∧ trace st'
       = trace demo_db ++ [CallRelease (order_reservations demo_db [0]);
                           CallSuperActionConfirm [0]]
     ∧ reservations_released [0] demo_db st')
  ∧ (∃ st', SaleOrder.action_cancel [0] demo_db = Ok true st'
       ∧ trace st'
         = trace demo_db ++ [CallRelease (order_reservations demo_db [0]);
                             CallSuperActionCancel [0]]
       ∧ reservations_released [0] demo_db st').
Proof.
  apply (action_confirm_cancel_release [0] demo_db).
  intros sale Hin. members Hin. vm_compute. eauto.
Defined.

Lemma acquire_stock_reservation_twice_witness :
  ∃ st1 st2 st3,
    SaleOrderLine.acquire_stock_reservation [0; 1; 2] None None demo_db
    = Ok true st1
    ∧ SaleOrderLine._compute_is_stock_reservation [0; 1; 2] st1 = Ok tt st2
    ∧ SaleOrderLine.acquire_stock_reservation [0; 1; 2] None None st2
      = Ok true st3
    ∧ (∀ line, line ∈ reservable_lines demo_db [0; 1; 2] →
         ∃ r, r ∈ reservation_ids st1 line
              ∧ (length (reservations demo_db) ≤ r)%nat)
    ∧ (∀ line, line ∈ [0; 1; 2] → reservation_ids st1 line ≠ [] →
         reservation_ids st3 line = reservation_ids st1 line).
Proof.
  apply (acquire_stock_reservation_twice [0; 1; 2] None None None None
                                         demo_db).
  exact demo_lines_with_order.
Defined.

(** * Further properties *)

(** ** The computes *)

Lemma reservable_condition_true st line l :
  SaleOrderLine.reservable_condition st line l = true
  ↔ reservation_ids st line = []
    ∧ line_state l = "draft"
    ∧ is_Some (line_product_id l)
    ∧ product_type <$> browse (products st) (line_product_id l)
      ≠ Some "service"
    ∧ SaleOrderLine._get_procure_method st l ≠ Some "make_to_order".
Proof.
  unfold SaleOrderLine.reservable_condition.
  rewrite andb_true_iff, !negb_true_iff, !orb_false_iff, !negb_false_iff.
  rewrite !bool_decide_eq_false, bool_decide_eq_true, String.eqb_eq.
  split.
  - intros [[[[? ?] ?] ?] Hfree]. repeat split; try done.
    destruct (reservation_ids st line); [done|]. by destruct Hfree.
  - intros (Hfree & ? & ? & ? & ?). repeat split; try done.
    intros Hne. by apply Hne.
Qed.

Lemma compute_line_Missing line st :
  lines st !! line = None →
  SaleOrderLine.compute_line line st = Raise MissingError st.
Proof.
  intros Hl. unfold SaleOrderLine.compute_line.
  by rewrite (bind_Raise _ _ _ _ _ (read_None _ _ _ Hl)).
Qed.

Lemma compute_is_stock_reservation_length self st st' :
  SaleOrderLine._compute_is_stock_reservation self st = Ok tt st' →
  length (lines st') = length (lines st).
Proof.
  unfold SaleOrderLine._compute_is_stock_reservation.
  revert st. induction self as [|line rest IH]; intros st Hrun.
  - by injection Hrun as <-.
  - destruct (lines st !! line) as [l|] eqn:Hl.
    + rewrite (for_each_cons _ _ _ _ _ (compute_line_Ok _ _ _ Hl)) in Hrun.
      apply IH in Hrun. simpl in Hrun. by rewrite length_alter in Hrun.
    + by rewrite (for_each_cons_Raise _ _ _ _ _ _
                    (compute_line_Missing _ _ Hl)) in Hrun.
Qed.

(** X1.  After [_compute_is_stock_reservation] every line of the
    recordset has a row, and the row is flagged reservable exactly when
    the line has no linked reservation, its state is ['draft'], it has a
    product that is not a service, and the procure method of its rule is
    not ['make_to_order']. *)
Theorem compute_is_stock_reservation_iff self st :
  (∀ line, line ∈ self → is_Some (lines st !! line)) →
  ∃ st', SaleOrderLine._compute_is_stock_reservation self st = Ok tt st'
    ∧ ∀ line, line ∈ self →
        ∃ l, lines st' !! line = Some l
          ∧ (line_is_stock_reservable l = true
             ↔ reservation_ids st' line = []
               ∧ line_state l = "draft"
               ∧ is_Some (line_product_id l)
               ∧ product_type <$> browse (products st') (line_product_id l)
                 ≠ Some "service"
               ∧ SaleOrderLine._get_procure_method st' l
                 ≠ Some "make_to_order").
Proof.
  intros Hex. destruct (compute_is_stock_reservation_spec self st Hex)
    as (t & Hrun & Ht).
  exists (set_lines t st). split; [done|].
  intros line Hin. destruct (Hex line Hin) as [l0 Hl0].
  eexists. split.
  { simpl. rewrite (Ht _ _ Hl0), bool_decide_eq_true_2 by done. done. }
  simpl line_is_stock_reservable.
  rewrite <-(reservable_condition_frame t st line
               (SaleOrderLine.reservable_condition st line l0) l0) at 1.
  apply reservable_condition_true.
Qed.

(** X2.  [_compute_is_stock_reservation] only rewrites the stored flag of
    the lines of the recordset: no other table changes, a line outside the
    recordset keeps its row, a line of the recordset keeps every other
    field.  Running it again on the store it leaves changes nothing. *)
Theorem compute_is_stock_reservation_frame self st :
  (∀ line, line ∈ self → is_Some (lines st !! line)) →
  ∃ st', SaleOrderLine._compute_is_stock_reservation self st = Ok tt st'
    ∧ st' = set_lines (lines st') st
    ∧ (∀ i l, lines st !! i = Some l →
         ∃ l', lines st' !! i = Some l' ∧ same_but_flag l l'
               ∧ (i ∉ self → l' = l))
    ∧ SaleOrderLine._compute_is_stock_reservation self st' = Ok tt st'.
Proof.
  intros Hex. destruct (compute_is_stock_reservation_spec self st Hex)
    as (t & Hrun & Ht).
  exists (set_lines t st). split; [done|]. split; [done|]. split.
  - intros i l Hl. eexists. split; [apply (Ht _ _ Hl)|].
    case_bool_decide; [by split|]. split; [by destruct l|done].
  - destruct (compute_is_stock_reservation_spec self (set_lines t st))
      as (t' & Hrun' & Ht').
    { intros i Hi. destruct (Hex i Hi) as [l Hl]. simpl.
      rewrite (Ht _ _ Hl). eauto. }
    rewrite Hrun'. f_equal. rewrite set_lines_set_lines.
    apply (f_equal (λ t, set_lines t st)).
    pose proof (compute_is_stock_reservation_length _ _ _ Hrun) as Hlen.
    pose proof (compute_is_stock_reservation_length _ _ _ Hrun') as Hlen'.
    simpl in Hlen, Hlen'.
    apply list_eq. intros i.
    destruct (lines st !! i) as [l|] eqn:Hl.
    + rewrite (Ht' i _ (Ht _ _ Hl)), (Ht _ _ Hl).
      case_bool_decide; [|done].
      by rewrite reservable_condition_frame.
    + apply lookup_ge_None in Hl.
      rewrite !lookup_ge_None_2; [done|lia|lia].
Qed.

Lemma compute_sale_Missing sale st :
  orders st !! sale = None →
  SaleOrder.compute_sale sale st = Raise MissingError st.
Proof.
  intros Ho. unfold SaleOrder.compute_sale.
  by rewrite (bind_Raise _ _ _ _ _ (read_None _ _ _ Ho)).
Qed.

Lemma compute_stock_reservation_length self st st' :
  SaleOrder._compute_stock_reservation self st = Ok tt st' →
  length (orders st') = length (orders st).
Proof.
  unfold SaleOrder._compute_stock_reservation.
  revert st. induction self as [|sale rest IH]; intros st Hrun.
  - by injection Hrun as <-.
  - destruct (orders st !! sale) as [o|] eqn:Ho.
    + rewrite (for_each_cons _ _ _ _ _ (compute_sale_Ok _ _ _ Ho)) in Hrun.
      apply IH in Hrun. simpl in Hrun. by rewrite length_alter in Hrun.
    + by rewrite (for_each_cons_Raise _ _ _ _ _ _
                    (compute_sale_Missing _ _ Ho)) in Hrun.
Qed.

(** X3.  [_compute_stock_reservation] only rewrites the two stored flags
    of the orders of the recordset: no other table changes, an order
    outside the recordset keeps its row, an order of the recordset keeps
    every other field.  Running it again on the store it leaves changes
    nothing. *)
Theorem compute_stock_reservation_frame self st :
  (∀ sale, sale ∈ self → is_Some (orders st !! sale)) →
  ∃ st', SaleOrder._compute_stock_reservation self st = Ok tt st'
    ∧ st' = set_orders (orders st') st
    ∧ (∀ i o, orders st !! i = Some o →
         ∃ o', orders st' !! i = Some o' ∧ same_but_flags o o'
               ∧ (i ∉ self → o' = o))
    ∧ SaleOrder._compute_stock_reservation self st' = Ok tt st'.
Proof.
  intros Hex. destruct (compute_stock_reservation_spec self st Hex)
    as (t & Hrun & Ht).
  exists (set_orders t st). split; [done|]. split; [done|]. split.
  - intros i o Ho. eexists. split; [apply (Ht _ _ Ho)|].
    case_bool_decide; [by split|]. split; [by destruct o|done].
  - destruct (compute_stock_reservation_spec self (set_orders t st))
      as (t' & Hrun' & Ht').
    { intros i Hi. destruct (Hex i Hi) as [o Ho]. simpl.
      rewrite (Ht _ _ Ho). eauto. }
    rewrite Hrun'. f_equal.
    apply (f_equal (λ t, set_orders t st)).
    pose proof (compute_stock_reservation_length _ _ _ Hrun) as Hlen.
    pose proof (compute_stock_reservation_length _ _ _ Hrun') as Hlen'.
    simpl in Hlen, Hlen'.
    apply list_eq. intros i.
    destruct (orders st !! i) as [o|] eqn:Ho.
    + rewrite (Ht' i _ (Ht _ _ Ho)), (Ht _ _ Ho).
      by case_bool_decide.
    + apply lookup_ge_None in Ho.
      rewrite !lookup_ge_None_2; [done|lia|lia].
Qed.

(** ** The rule lookup *)

(** X4.  A rule returned by [_get_line_rule] has a row, and its route is a
    route of the product, of the category of the product or of the
    warehouse of the order; [_get_procure_method] returns the method of
    that row.  So a line whose product, category and warehouse have no
    route has no rule, whatever the rules are. *)
Theorem get_line_rule_on_route st (self : sale_order_line) i :
  SaleOrderLine._get_line_rule st self = Some i →
  ∃ r route,
    rules st !! i = Some r
    ∧ rule_route_id r = Some route
    ∧ (route ∈ product_routes st self ∨ route ∈ warehouse_routes st self)
    ∧ SaleOrderLine._get_procure_method st self
      = Some (rule_procure_method r).
Proof.
  intros Hrule.
  enough (∃ r route, rules st !! i = Some r ∧ rule_route_id r = Some route
            ∧ (route ∈ product_routes st self
               ∨ route ∈ warehouse_routes st self))
    as (r & route & Hr & Hroute & Hin).
  { exists r, route. split; [done|]. split; [done|]. split; [done|].
    unfold SaleOrderLine._get_procure_method. rewrite Hrule. simpl.
    by rewrite Hr. }
  revert Hrule. unfold SaleOrderLine._get_line_rule.
  fold (product_routes st self). fold (line_warehouse st self).
  fold (warehouse_routes st self).
  pose proof (search_limit_1
                [Leaf "route_id" "in" (DIds (product_routes st self))]
                ["route_sequence"; "sequence"] st) as H1.
  destruct (search _ _ _ st) as [|j rest].
  - rewrite (bool_decide_eq_true_2 (@nil nat = [])) by done.
    pose proof (search_limit_1
                  [Or;
                   Leaf "warehouse_id" "="
                        (from_option DId DFalse (line_warehouse st self));
                   Leaf "warehouse_id" "=" DFalse;
                   Leaf "route_id" "in" (DIds (warehouse_routes st self))]
                  ["route_sequence"; "sequence"] st) as H2.
    destruct (search _ _ _ st) as [|j rest].
    + by rewrite (bool_decide_eq_false_2 (@nil nat ≠ []))
        by (by intros H; apply H).
    + rewrite (bool_decide_eq_true_2 (j :: rest ≠ [])) by done. simpl.
      intros [= ->]. destruct H2 as (_ & r & Hr & Hm & _).
      apply matches_warehouse_domain in Hm as [_ (route & Hroute & Hin)].
      exists r, route. auto.
  - rewrite (bool_decide_eq_false_2 (j :: rest = [])) by done.
    rewrite (bool_decide_eq_true_2 (j :: rest ≠ [])) by done. simpl.
    intros [= ->]. destruct H1 as (_ & r & Hr & Hm & _).
    apply matches_product_domain in Hm as (route & Hroute & Hin).
    exists r, route. auto.
Qed.

Lemma get_line_rule_on_route_witness :
  ∃ r route,
    rules demo_db !! 2 = Some r
    ∧ rule_route_id r = Some route
    ∧ (route ∈ product_routes demo_db
                 (demo_line 0 "chair" "draft" (Some 0) 3 10 true)
       ∨ route ∈ warehouse_routes demo_db
                   (demo_line 0 "chair" "draft" (Some 0) 3 10 true))
    ∧ SaleOrderLine._get_procure_method demo_db
        (demo_line 0 "chair" "draft" (Some 0) 3 10 true)
      = Some (rule_procure_method r).
Proof.
  apply (get_line_rule_on_route demo_db
           (demo_line 0 "chair" "draft" (Some 0) 3 10 true) 2).
  by vm_compute.
Defined.

(** ** Acquiring and releasing *)

Lemma prepare_stock_reservation_with_group self date_validity note st l o :
  lines st !! self = Some l →
  orders st !! line_order_id l = Some o →
  is_Some (order_procurement_group_id o) →
  SaleOrderLine._prepare_stock_reservation self date_validity note st
  = Ok (reservation_vals_of l o self date_validity note) st.
Proof.
  intros Hl Ho [g Hg]. unfold SaleOrderLine._prepare_stock_reservation.
  rewrite (bind_Ok _ _ _ _ _ (read_Some _ _ _ _ Hl)).
  rewrite (bind_Ok _ _ _ _ _ (read_Some _ _ _ _ Ho)).
  rewrite Hg. simpl.
  rewrite (bind_Ok _ _ _ _ _ (eq_refl : ret tt st = Ok tt st)).
  by rewrite (bind_Ok _ _ _ _ _ (read_Some _ _ _ _ Ho)).
Qed.

(** X5.  [_prepare_stock_reservation] creates the procurement group of an
    order at most once: after a call on a line, a call on any line of the
    same order leaves the store as it is and returns the same group. *)
Theorem prepare_stock_reservation_once self self' date_validity note
    date_validity' note' st l l' :
  lines st !! self = Some l →
  lines st !! self' = Some l' →
  line_order_id l' = line_order_id l →
  is_Some (orders st !! line_order_id l) →
  ∃ vals st1 vals',
    SaleOrderLine._prepare_stock_reservation self date_validity note st
    = Ok vals st1
    ∧ SaleOrderLine._prepare_stock_reservation self' date_validity' note' st1
      = Ok vals' st1
    ∧ is_Some (res_group_id vals)
    ∧ res_group_id vals' = res_group_id vals.
Proof.
  intros Hl Hl' Hsame [o Ho].
  destruct (prepare_stock_reservation_spec self date_validity note st l o
              Hl Ho) as (o1 & st1 & Hrun & Hext & _ & Ho1 & Hg1).
  eexists _, st1, _. split; [exact Hrun|]. split; [|split; [exact Hg1|]].
  - apply prepare_stock_reservation_with_group; [|by rewrite Hsame|done].
    by rewrite (ext_lines _ _ Hext).
  - done.
Qed.

Lemma acquire_loop_skip date_validity note acc self st :
  (∀ line, line ∈ self →
     ∃ l, lines st !! line = Some l ∧ line_is_stock_reservable l = false) →
  SaleOrderLine.acquire_loop date_validity note acc self st = Ok acc st.
Proof.
  induction self as [|line rest IH]; intros Hnone; [done|].
  destruct (Hnone line) as (l & Hl & Hflag); [left|]. simpl.
  rewrite (bind_Ok _ _ _ _ _ (acquire_line_skip _ _ _ _ _ _ Hl Hflag)).
  apply IH. intros i Hi. apply Hnone. by right.
Qed.

Lemma emit_set_reservations_id e st :
  set_reservations (reservations st) (emit e st) = emit e st.
Proof. by destruct st. Qed.

(** X6.  On a recordset without a line flagged reservable, the empty
    recordset included, [acquire_stock_reservation] returns [True] and
    creates nothing: its only effect is a call to [reserve] on the empty
    recordset. *)
Theorem acquire_nothing_reservable self date_validity note st :
  (∀ line, line ∈ self →
     ∃ l, lines st !! line = Some l ∧ line_is_stock_reservable l = false) →
  SaleOrderLine.acquire_stock_reservation self date_validity note st
  = Ok true (emit (CallReserve []) st).
Proof.
  intros Hnone. unfold SaleOrderLine.acquire_stock_reservation.
  rewrite (bind_Ok _ _ _ _ _ (acquire_loop_skip _ _ _ _ _ Hnone)).
  unfold reserve, bind, modify, ret. simpl.
  by rewrite emit_set_reservations_id.
Qed.

(** X7.  The reservations that one call of [acquire_stock_reservation]
    creates for lines of the same order carry the same procurement group:
    the group of the order is created once and shared. *)
Theorem acquire_one_group_per_order self date_validity note st :
  lines_with_order st self →
  ∃ st' news,
    SaleOrderLine.acquire_stock_reservation self date_validity note st
    = Ok true st'
    ∧ reservations st' = reservations st ++ news
    ∧ ∀ (x x' : stock_reservation) line line' l l',
        x ∈ news → x' ∈ news →
        res_sale_line_id x = Some line → res_sale_line_id x' = Some line' →
        lines st !! line = Some l → lines st !! line' = Some l' →
        line_order_id l = line_order_id l' →
        is_Some (res_group_id x) ∧ res_group_id x = res_group_id x'.
Proof.
  intros Hwf.
  destruct (acquire_stock_reservation_spec self date_validity note st Hwf)
    as (st1 & news & Hext & Hrun & Hall).
  eexists _, (set_res_status Reserved <$> news).
  split; [exact Hrun|]. split; [done|].
  assert (∀ (x : stock_reservation) line l,
            x ∈ set_res_status Reserved <$> news →
            res_sale_line_id x = Some line → lines st !! line = Some l →
            ∃ o, orders st1 !! line_order_id l = Some o
                 ∧ is_Some (order_procurement_group_id o)
                 ∧ res_group_id x = order_procurement_group_id o) as Hgroup.
  { intros x line l Hx Hlink Hl.
    apply list_elem_of_fmap in Hx as (x0 & -> & Hx0).
    apply list_elem_of_lookup in Hx0 as [k Hk].
    destruct (Forall2_lookup_r _ _ _ _ _ Hall Hk)
      as (line0 & _ & (l0 & o & Hl0 & Ho & Hg & Hvals) & _).
    simpl in Hlink. rewrite Hvals in Hlink. injection Hlink as ->.
    rewrite (ext_lines _ _ Hext), Hl in Hl0. injection Hl0 as <-.
    exists o. split; [done|]. split; [done|]. simpl. by rewrite Hvals. }
  intros x x' line line' l l' Hx Hx' Hlink Hlink' Hl Hl' Hsame.
  destruct (Hgroup x line l Hx Hlink Hl) as (o & Ho & Hg & ->).
  destruct (Hgroup x' line' l' Hx' Hlink' Hl') as (o' & Ho' & _ & ->).
  rewrite Hsame, Ho' in Ho. by injection Ho as ->.
Qed.

Lemma bind_reservation_ids_nil st self :
  (∀ line, line ∈ self → reservation_ids st line = []) →
  self ≫= reservation_ids st = [].
Proof.
  induction self as [|line rest IH]; intros Hnone; [done|].
  change ((line :: rest) ≫= reservation_ids st)
    with (reservation_ids st line ++ (rest ≫= reservation_ids st)).
  rewrite (Hnone line) by left. simpl. apply IH.
  intros i Hi. apply Hnone. by right.
Qed.

(** X8.  On existing lines without a linked reservation, the empty
    recordset included, [release_stock_reservation] returns [True] and
    its only effect is a call to [release] on the empty recordset. *)
Theorem release_nothing_reserved self st :
  (∀ line, line ∈ self → is_Some (lines st !! line)) →
  (∀ line, line ∈ self → reservation_ids st line = []) →
  SaleOrderLine.release_stock_reservation self st
  = Ok true (emit (CallRelease []) st).
Proof.
  intros Hex Hnone. unfold SaleOrderLine.release_stock_reservation.
  rewrite (bind_Ok _ _ _ _ _ (mapped_Ok lines reservation_ids _ _ Hex)).
  rewrite (bind_reservation_ids_nil _ _ Hnone). simpl.
  unfold release, bind, modify, ret. simpl.
  by rewrite emit_set_reservations_id.
Qed.

(** ** When [write] returns *)

(** X10.  On existing lines and with values of the types of their fields,
    [write] returns exactly when neither guard fires: [vals] holds no key
    of the guard on reserved lines or no line has a reservation, and
    [vals] holds no key of the cascade or no line has several
    reservations. *)
Theorem write_returns_iff self vals st :
  (∀ line, line ∈ self → is_Some (lines st !! line)) →
  (∀ l, is_Some (line_write_vals vals l)) →
  (∃ st', SaleOrderLine.write self vals st = Ok true st')
  ↔ (¬ has_block_key vals
     ∨ ∀ line, line ∈ self → reservation_ids st line = [])
    ∧ (¬ has_update_key vals
       ∨ Forall (λ line, (length (reservation_ids st line) ≤ 1)%nat) self).
Proof.
  intros Hex Hconv. unfold has_block_key, has_update_key.
  rewrite <-test_block_on_reserve_keys, <-test_update_on_reserve_keys.
  split.
  - intros [st' Hrun]. split.
    + destruct (decide (SaleOrderLine._test_block_on_reserve vals = ∅))
        as [Hfree|Hblock]; [left; by intros H|].
      destruct (decide (Forall (λ line, reservation_ids st line = []) self))
        as [Hnone|Hsome]; [right; by apply Forall_forall|].
      apply not_Forall_Exists, Exists_exists in Hsome as (line & Hin & Hres);
        [|apply _].
      rewrite write_blocked in Hrun; [done|done|done|eauto].
    + destruct (decide (SaleOrderLine._test_update_on_reserve vals = ∅))
        as [Hfree|Hupdate]; [left; by intros H|].
      right.
      by destruct (write_Ok_synced _ _ _ _ _ Hupdate Hrun)
        as (_ & _ & _ & _ & Hall & _).
  - intros [Hblock Hupdate].
    rewrite write_not_blocked; cycle 1.
    { destruct Hblock as [Hfree|Hnone]; [left|by right].
      destruct (decide (SaleOrderLine._test_block_on_reserve vals = ∅));
        [done|by destruct Hfree]. }
    unfold write_through.
    rewrite (bind_Ok _ _ _ _ _ (orm_write_Ok lines set_lines line_write_vals
                                             self vals st Hex Hconv)).
    case_bool_decide as Hkeys; [|by eexists].
    destruct Hupdate as [Hfree|Hall]; [by destruct Hfree|].
    erewrite bind_Ok; [by eexists|].
    apply update_reservation_price_qty_Ok; [|done].
    intros i Hi. simpl. apply lookup_lt_is_Some.
    rewrite foldr_alter_length. by apply lookup_lt_is_Some, Hex.
Qed.

Lemma sync_reservation_twice st done x :
  sync_reservation (synced st done) done (sync_reservation st done x)
  = sync_reservation st done x.
Proof.
  unfold sync_reservation at 1. rewrite sync_reservation_sale_line.
  unfold sync_reservation.
  destruct (res_sale_line_id x) as [line|]; simpl; [|done].
  case_bool_decide; [|done]. by destruct (lines st !! line).
Qed.

(** X11.  On existing lines none of which has several reservations,
    [_update_reservation_price_qty] returns, changes no table but that of
    the reservations, and running it again on the store it leaves changes
    nothing. *)
Theorem update_reservation_price_qty_idempotent self st :
  (∀ line, line ∈ self → is_Some (lines st !! line)) →
  Forall (λ line, (length (reservation_ids st line) ≤ 1)%nat) self →
  ∃ st', SaleOrderLine._update_reservation_price_qty self st = Ok tt st'
    ∧ st' = set_reservations (reservations st') st
    ∧ SaleOrderLine._update_reservation_price_qty self st' = Ok tt st'.
Proof.
  intros Hex Hall. exists (synced st self).
  split; [by apply update_reservation_price_qty_Ok|]. split; [done|].
  rewrite update_reservation_price_qty_Ok; [| |].
  - f_equal.
    transitivity
      (set_reservations
         (sync_reservation (synced st self) self
            <$> (sync_reservation st self <$> reservations st)) st);
      [reflexivity|].
    unfold synced at 2. apply (f_equal (λ t, set_reservations t st)).
    rewrite <-list_fmap_compose. apply list_fmap_ext. intros i x _.
    apply sync_reservation_twice.
  - exact Hex.
  - eapply Forall_impl; [exact Hall|]. intros i Hi. simpl.
    by rewrite reservation_ids_synced.
Qed.

Lemma foldr_alter_lookup_prop {A} (P : A → Prop) (f : A → A)
    (recs : list record_id) (t : list A) i :
  (∀ y, P (f y)) → i ∈ recs → is_Some (t !! i) →
  ∃ y, foldr (alter f) t recs !! i = Some y ∧ P y.
Proof.
  intros Hf Hin Hsome. induction recs as [|j recs IH]; simpl.
  - by apply elem_of_nil in Hin.
  - destruct (decide (j = i)) as [->|Hne].
    + rewrite list_lookup_alter_eq.
      assert (is_Some (foldr (alter f) t recs !! i)) as [z Hz].
      { apply lookup_lt_is_Some. rewrite foldr_alter_length.
        by apply lookup_lt_is_Some. }
      rewrite Hz. simpl. eauto.
    + rewrite list_lookup_alter_ne by done. apply IH.
      apply elem_of_cons in Hin as [?|?]; [congruence|done].
Qed.

Lemma line_write_vals_product_uom u l :
  line_write_vals {[ "product_uom" := VInt u ]} l
  = Some (set_line_product_uom (Some u) l).
Proof. reflexivity. Qed.

(** X12.  The guard on reserved lines does not cover the unit of measure
    that the reservation was created with: its keys are ['product_id'],
    ['product_uom_id'] and ['type'], and the field of the line is
    ['product_uom'].  A [write] of ['product_uom'] alone returns on any
    existing lines, reserved or not; the lines carry the new unit and no
    reservation is changed. *)
Theorem write_product_uom_not_guarded self u st :
  (∀ line, line ∈ self → is_Some (lines st !! line)) →
  ∃ st', SaleOrderLine.write self {[ "product_uom" := VInt u ]} st
         = Ok true st'
    ∧ reservations st' = reservations st
    ∧ ∀ line, line ∈ self →
        ∃ l, lines st' !! line = Some l ∧ line_product_uom l = Some u.
Proof.
  intros Hex.
  assert (SaleOrderLine._test_block_on_reserve
            ({[ "product_uom" := VInt u ]} : gmap string value) = ∅)
    as Hblock.
  { destruct (decide (SaleOrderLine._test_block_on_reserve
                        ({[ "product_uom" := VInt u ]} : gmap string value)
                      = ∅)) as [|Hne]; [done|].
    apply test_block_on_reserve_keys in Hne.
    rewrite !lookup_singleton_ne in Hne by done.
    by destruct Hne as [[? ?]|[[? ?]|[? ?]]]. }
  assert (SaleOrderLine._test_update_on_reserve
            ({[ "product_uom" := VInt u ]} : gmap string value) = ∅)
    as Hupdate.
  { destruct (decide (SaleOrderLine._test_update_on_reserve
                        ({[ "product_uom" := VInt u ]} : gmap string value)
                      = ∅)) as [|Hne]; [done|].
    apply test_update_on_reserve_keys in Hne.
    rewrite !lookup_singleton_ne in Hne by done.
    by destruct Hne as [[? ?]|[? ?]]. }
  eexists. split; [|split].
  - rewrite write_not_blocked by by left. unfold write_through.
    rewrite (bind_Ok _ _ _ _ _
               (orm_write_Ok lines set_lines line_write_vals self
                             {[ "product_uom" := VInt u ]} st Hex
                             (λ l, ex_intro _ _
                                     (line_write_vals_product_uom u l)))).
    rewrite (bool_decide_eq_false_2 _ (λ H, H Hupdate)). reflexivity.
  - done.
  - intros line Hin. simpl.
    apply (foldr_alter_lookup_prop (λ l, line_product_uom l = Some u));
      [|done|by apply Hex].
    intros y. by rewrite line_write_vals_product_uom.
Qed.

(** ** Confirmation and cancellation, further *)

(** X14.  On a recordset with an order that has no row, [_action_confirm]
    and [action_cancel] raise [MissingError] on the store they started
    from: no reservation is released and the confirmation or cancellation
    of the host is not reached. *)
Theorem action_confirm_cancel_missing self st sale :
  sale ∈ self → orders st !! sale = None →
  SaleOrder._action_confirm self st = Raise MissingError st
  ∧ SaleOrder.action_cancel self st = Raise MissingError st.
Proof.
  intros Hin Hnone.
  assert (SaleOrder.release_all_stock_reservation self st
          = Raise MissingError st) as Hrun.
  { unfold SaleOrder.release_all_stock_reservation.
    by rewrite (bind_Raise _ _ _ _ _
                  (mapped_Missing orders order_line _ _ _ Hin Hnone)). }
  split.
  - unfold SaleOrder._action_confirm. by rewrite (bind_Raise _ _ _ _ _ Hrun).
  - unfold SaleOrder.action_cancel. by rewrite (bind_Raise _ _ _ _ _ Hrun).
Qed.

(** X15.  After [acquire_stock_reservation] on a recordset with a line
    flagged reservable, [_compute_stock_reservation] on the order of that
    line sets [has_stock_reservation]. *)
Theorem acquire_then_compute_order self date_validity note st line l :
  lines_with_order st self →
  line ∈ self → lines st !! line = Some l →
  line_is_stock_reservable l = true →
  ∃ st1 st2 o,
    SaleOrderLine.acquire_stock_reservation self date_validity note st
    = Ok true st1
    ∧ SaleOrder._compute_stock_reservation [line_order_id l] st1 = Ok tt st2
    ∧ orders st2 !! line_order_id l = Some o
    ∧ order_has_stock_reservation o = true.
Proof.
  intros Hwf Hin Hl Hflag.
  destruct (acquire_stock_reservation_spec self date_validity note st Hwf)
    as (sa & news & Hext & Hrun & Hall).
  set (st1 := set_reservations _ (emit _ sa)) in Hrun.
  assert (line ∈ reservable_lines st self) as Hres.
  { apply list_elem_of_filter. split; [|done]. by rewrite Hl. }
  apply list_elem_of_lookup in Hres as [k Hk].
  destruct (Forall2_lookup_l _ _ _ _ _ Hall Hk) as (x & Hx & Hfor & _).
  apply reservation_for_sale_line in Hfor.
  assert (reservation_ids st1 line ≠ []) as Hlinked.
  { assert (length (reservations st) + k ∈ reservation_ids st1 line) as Hr.
    { apply elem_of_reservation_ids. exists (set_res_status Reserved x).
      split; [|done]. simpl. rewrite lookup_app_r by lia.
      replace (length (reservations st) + k - length (reservations st))
        with k by lia.
      by rewrite list_lookup_fmap, Hx. }
    intros Hnil. rewrite Hnil in Hr. by apply elem_of_nil in Hr. }
  destruct (Hwf line Hin) as (l0 & Hl0 & [o Ho]).
  assert (l0 = l) as -> by congruence.
  destruct (Forall2_lookup_l _ _ _ _ _ (ext_orders _ _ Hext) Ho)
    as (o1 & Ho1 & _).
  destruct (compute_stock_reservation_spec [line_order_id l] st1)
    as (t & Hrun2 & Ht).
  { intros i ->%list_elem_of_singleton. simpl. eauto. }
  eexists st1, _, _. split; [done|]. split; [exact Hrun2|].
  split.
  - simpl. rewrite (Ht _ _ Ho1), bool_decide_eq_true_2 by left. done.
  - simpl. rewrite scan_line_foldl. simpl.
    apply existsb_exists. exists line. split.
    + apply list_elem_of_In, elem_of_order_line. exists l. split; [|done].
      simpl. by rewrite (ext_lines _ _ Hext).
    + by apply bool_decide_eq_true.
Qed.

(** ** A missing row, and the compute before acquiring *)

(** X16.  On a recordset with a line that has no row, a [write] whose
    [vals] holds a key of the guard on reserved lines raises
    [MissingError] when the guard reads the reservations of the lines,
    before the host's write is reached: the store is the one the call
    started from. *)
Theorem write_missing_line self vals st line :
  has_block_key vals →
  line ∈ self → lines st !! line = None →
  SaleOrderLine.write self vals st = Raise MissingError st.
Proof.
  intros Hkeys%test_block_on_reserve_keys Hin Hnone.
  unfold SaleOrderLine.write.
  rewrite (bool_decide_eq_true_2 _ Hkeys). unfold bind at 1 2.
  by rewrite (mapped_Missing lines reservation_ids _ _ _ Hin Hnone).
Qed.

(** X18.  [_compute_is_stock_reservation] followed by
    [acquire_stock_reservation] on the same lines creates a reservation
    for a line of the recordset exactly when, before the two calls, the
    line had no reservation, was in state ['draft'], had a product that is
    not a service, and the procure method of its rule was not
    ['make_to_order']: it never reserves twice, nor a service, nor a
    make-to-order product, nor a line that is not a draft. *)
Theorem compute_then_acquire self date_validity note st :
  lines_with_order st self →
  ∃ st1 st2 news,
    SaleOrderLine._compute_is_stock_reservation self st = Ok tt st1
    ∧ SaleOrderLine.acquire_stock_reservation self date_validity note st1
      = Ok true st2
    ∧ reservations st2 = reservations st ++ news
    ∧ ∀ line l, line ∈ self → lines st !! line = Some l →
        ((∃ x : stock_reservation,
            x ∈ news ∧ res_sale_line_id x = Some line)
         ↔ reservation_ids st line = []
           ∧ line_state l = "draft"
           ∧ is_Some (line_product_id l)
           ∧ product_type <$> browse (products st) (line_product_id l)
             ≠ Some "service"
           ∧ SaleOrderLine._get_procure_method st l
             ≠ Some "make_to_order").
Proof.
  intros Hwf.
  destruct (compute_is_stock_reservation_spec self st) as (t & Hrun & Ht).
  { intros i Hi. destruct (Hwf i Hi) as (l & Hl & _). eauto. }
  set (st1 := set_lines t st) in Hrun.
  assert (lines_with_order st1 self) as Hwf1.
  { intros i Hi. destruct (Hwf i Hi) as (l & Hl & Ho). eexists. split.
    - simpl. rewrite (Ht _ _ Hl), bool_decide_eq_true_2 by done. done.
    - done. }
  destruct (acquire_stock_reservation_spec self date_validity note st1 Hwf1)
    as (sa & news & Hext & Hrun2 & Hall).
  assert (∀ line l, line ∈ self → lines st !! line = Some l →
            line ∈ reservable_lines st1 self
            ↔ SaleOrderLine.reservable_condition st line l = true) as Hflag.
  { intros line l Hin Hl. unfold reservable_lines.
    rewrite list_elem_of_filter. simpl.
    rewrite (Ht _ _ Hl), bool_decide_eq_true_2 by done. simpl. tauto. }
  eexists st1, _, (set_res_status Reserved <$> news).
  split; [done|]. split; [exact Hrun2|]. split; [done|].
  intros line l Hin Hl. rewrite <-reservable_condition_true, <-(Hflag _ _ Hin Hl).
  split.
  - intros (x & Hx & Hlink).
    apply list_elem_of_fmap in Hx as (x0 & -> & Hx0).
    apply list_elem_of_lookup in Hx0 as [k Hk].
    destruct (Forall2_lookup_r _ _ _ _ _ Hall Hk)
      as (line0 & Hline0 & Hfor & _).
    apply reservation_for_sale_line in Hfor. simpl in Hlink.
    assert (line0 = line) as -> by congruence.
    by eapply list_elem_of_lookup_2.
  - intros [k Hk]%list_elem_of_lookup.
    destruct (Forall2_lookup_l _ _ _ _ _ Hall Hk) as (x & Hx & Hfor & _).
    apply reservation_for_sale_line in Hfor.
    exists (set_res_status Reserved x). split; [|done].
    apply list_elem_of_fmap. exists x. split; [done|].
    by eapply list_elem_of_lookup_2.
Qed.

(** * The further properties at work on [demo_db] *)

Lemma demo_lines_exist :
  ∀ line, line ∈ [0; 1; 3] → is_Some (lines demo_db !! line).
Proof. intros line Hin. members Hin; vm_compute; eauto. Defined.

Lemma compute_is_stock_reservation_iff_witness :
  ∃ st', SaleOrderLine._compute_is_stock_reservation [0; 1; 3] demo_db
         = Ok tt st'
    ∧ ∀ line, line ∈ [0; 1; 3] →
        ∃ l, lines st' !! line = Some l
          ∧ (line_is_stock_reservable l = true
             ↔ reservation_ids st' line = []
               ∧ line_state l = "draft"
               ∧ is_Some (line_product_id l)
               ∧ product_type <$> browse (products st') (line_product_id l)
                 ≠ Some "service"
               ∧ SaleOrderLine._get_procure_method st' l
                 ≠ Some "make_to_order").
Proof.
  exact (compute_is_stock_reservation_iff [0; 1; 3] demo_db
           demo_lines_exist).
Defined.

Lemma compute_is_stock_reservation_frame_witness :
  ∃ st', SaleOrderLine._compute_is_stock_reservation [0; 1; 3] demo_db
         = Ok tt st'
    ∧ st' = set_lines (lines st') demo_db
    ∧ (∀ i l, lines demo_db !! i = Some l →
         ∃ l', lines st' !! i = Some l' ∧ same_but_flag l l'
               ∧ (i ∉ [0; 1; 3] → l' = l))
    ∧ SaleOrderLine._compute_is_stock_reservation [0; 1; 3] st' = Ok tt st'.
Proof.
  exact (compute_is_stock_reservation_frame [0; 1; 3] demo_db
           demo_lines_exist).
Defined.

Lemma demo_orders_exist :
  ∀ sale, sale ∈ [0; 1] → is_Some (orders demo_db !! sale).
Proof. intros sale Hin. members Hin; vm_compute; eauto. Defined.

Lemma compute_stock_reservation_frame_witness :
  ∃ st', SaleOrder._compute_stock_reservation [0; 1] demo_db = Ok tt st'
    ∧ st' = set_orders (orders st') demo_db
    ∧ (∀ i o, orders demo_db !! i = Some o →
         ∃ o', orders st' !! i = Some o' ∧ same_but_flags o o'
               ∧ (i ∉ [0; 1] → o' = o))
    ∧ SaleOrder._compute_stock_reservation [0; 1] st' = Ok tt st'.
Proof.
  exact (compute_stock_reservation_frame [0; 1] demo_db demo_orders_exist).
Defined.

Lemma prepare_stock_reservation_once_witness :
  ∃ vals st1 vals',
    SaleOrderLine._prepare_stock_reservation 0 None None demo_db
    = Ok vals st1
    ∧ SaleOrderLine._prepare_stock_reservation 1 None None st1
      = Ok vals' st1
    ∧ is_Some (res_group_id vals)
    ∧ res_group_id vals' = res_group_id vals.
Proof.
  refine (prepare_stock_reservation_once 0 1 None None None None demo_db
            (demo_line 0 "chair" "draft" (Some 0) 3 10 true)
            (demo_line 0 "table" "draft" (Some 0) 1 80 false) _ _ _ _).
  - reflexivity.
  - reflexivity.
  - reflexivity.
  - vm_compute. eauto.
Defined.

Lemma acquire_nothing_reservable_witness :
  SaleOrderLine.acquire_stock_reservation [1; 2; 3] None None demo_db
  = Ok true (emit (CallReserve []) demo_db).
Proof.
  apply (acquire_nothing_reservable [1; 2; 3] None None demo_db).
  intros line Hin. members Hin; eexists; (split; reflexivity).
Defined.

Lemma acquire_one_group_per_order_witness :
  ∃ st' news,
    SaleOrderLine.acquire_stock_reservation [0; 1; 2] None None demo_db
    = Ok true st'
    ∧ reservations st' = reservations demo_db ++ news
    ∧ ∀ (x x' : stock_reservation) line line' l l',
        x ∈ news → x' ∈ news →
        res_sale_line_id x = Some line → res_sale_line_id x' = Some line' →
        lines demo_db !! line = Some l → lines demo_db !! line' = Some l' →
        line_order_id l = line_order_id l' →
        is_Some (res_group_id x) ∧ res_group_id x = res_group_id x'.
Proof.
  exact (acquire_one_group_per_order [0; 1; 2] None None demo_db
           demo_lines_with_order).
Defined.

Lemma release_nothing_reserved_witness :
  SaleOrderLine.release_stock_reservation [0; 3] demo_db
  = Ok true (emit (CallRelease []) demo_db).
Proof.
  apply (release_nothing_reserved [0; 3] demo_db).
  - intros line Hin. members Hin; vm_compute; eauto.
  - intros line Hin. members Hin; by vm_compute.
Defined.

Lemma write_returns_iff_witness :
  (∃ st', SaleOrderLine.write [0; 1] demo_price_vals demo_db = Ok true st')
  ↔ (¬ has_block_key demo_price_vals
     ∨ ∀ line, line ∈ [0; 1] → reservation_ids demo_db line = [])
    ∧ (¬ has_update_key demo_price_vals
       ∨ Forall (λ line, (length (reservation_ids demo_db line) ≤ 1)%nat)
                [0; 1]).
Proof.
  apply (write_returns_iff [0; 1] demo_price_vals demo_db).
  - intros line Hin. members Hin; vm_compute; eauto.
  - intros l. vm_compute. eauto.
Defined.

Lemma update_reservation_price_qty_idempotent_witness :
  ∃ st', SaleOrderLine._update_reservation_price_qty [0; 1] demo_db
         = Ok tt st'
    ∧ st' = set_reservations (reservations st') demo_db
    ∧ SaleOrderLine._update_reservation_price_qty [0; 1] st' = Ok tt st'.
Proof.
  apply (update_reservation_price_qty_idempotent [0; 1] demo_db).
  - intros line Hin. members Hin; vm_compute; eauto.
  - by apply (bool_decide_unpack _).
Defined.

Lemma write_product_uom_not_guarded_witness :
  ∃ st', SaleOrderLine.write [1; 2] {[ "product_uom" := VInt 5 ]} demo_db
         = Ok true st'
    ∧ reservations st' = reservations demo_db
    ∧ ∀ line, line ∈ [1; 2] →
        ∃ l, lines st' !! line = Some l ∧ line_product_uom l = Some 5.
Proof.
  apply (write_product_uom_not_guarded [1; 2] 5 demo_db).
  intros line Hin. members Hin; vm_compute; eauto.
Defined.

Lemma action_confirm_cancel_missing_witness :
  SaleOrder._action_confirm [0; 9] demo_db = Raise MissingError demo_db
  ∧ SaleOrder.action_cancel [0; 9] demo_db = Raise MissingError demo_db.
Proof.
  apply (action_confirm_cancel_missing [0; 9] demo_db 9).
  - by right; left.
  - reflexivity.
Defined.

Lemma acquire_then_compute_order_witness :
  ∃ st1 st2 o,
    SaleOrderLine.acquire_stock_reservation [0; 1; 2] None None demo_db
    = Ok true st1
    ∧ SaleOrder._compute_stock_reservation [0] st1 = Ok tt st2
    ∧ orders st2 !! 0 = Some o
    ∧ order_has_stock_reservation o = true.
Proof.
  refine (acquire_then_compute_order [0; 1; 2] None None demo_db 0
            (demo_line 0 "chair" "draft" (Some 0) 3 10 true) _ _ _ _).
  - exact demo_lines_with_order.
  - by left.
  - reflexivity.
  - reflexivity.
Defined.

Lemma write_missing_line_witness :
  SaleOrderLine.write [0; 9] demo_product_vals demo_db
  = Raise MissingError demo_db.
Proof.
  apply (write_missing_line [0; 9] demo_product_vals demo_db 9).
  - left. vm_compute. eauto.
  - by right; left.
  - reflexivity.
Defined.

Lemma compute_then_acquire_witness :
  ∃ st1 st2 news,
    SaleOrderLine._compute_is_stock_reservation [0; 1; 2] demo_db = Ok tt st1
    ∧ SaleOrderLine.acquire_stock_reservation [0; 1; 2] None None st1
      = Ok true st2
    ∧ reservations st2 = reservations demo_db ++ news
    ∧ ∀ line l, line ∈ [0; 1; 2] → lines demo_db !! line = Some l →
        ((∃ x : stock_reservation,
            x ∈ news ∧ res_sale_line_id x = Some line)
         ↔ reservation_ids demo_db line = []
           ∧ line_state l = "draft"
           ∧ is_Some (line_product_id l)
           ∧ product_type <$> browse (products demo_db) (line_product_id l)
             ≠ Some "service"
           ∧ SaleOrderLine._get_procure_method demo_db l
             ≠ Some "make_to_order").
Proof.
  exact (compute_then_acquire [0; 1; 2] None None demo_db
           demo_lines_with_order).
Defined.
